(** * scripts/generate_test_matrix.py: the cheatsheet generator

    A shallow embedding of the script that walks a directory of example
  patterns, runs the matcher on each (pattern, code) pair and assembles
  the cheatsheet, together with the properties its specification states.

  Python values are modelled as follows.
  - [str] is [string]; texts are taken to be ASCII, so that a character
    of [string] is a code point.
  - [int] is [Z].
  - a [dict] whose iteration order matters is an association list in
    insertion order; [None] is [option]'s [None].
  - the filesystem, the matcher subprocess and the library functions
    the script calls ([os.path.relpath], [yaml.dump], [json.loads],
    [json.dumps], [tempfile]) are fields of a [World].
  - [print], the subprocess call, the opening of the output file and the
    final write are logged as events; [sys.exit] and exceptions are
    outcomes. *)

From Stdlib Require Import String Ascii List ZArith Bool Lia DecimalString.
Import ListNotations.
Open Scope list_scope.
Open Scope string_scope.

Set Implicit Arguments.

(** ** Python builtins used by the script *)

Module Py.

(** The double quote and the line feed, which string literals here do not
    spell out. *)
Definition dq : string := String (ascii_of_nat 34) EmptyString.
Definition lf_char : ascii := ascii_of_nat 10.
Definition lf : string := String lf_char EmptyString.

(** [str.isspace] on one ASCII character: TAB..CR, FS..US and SPACE. *)
Definition isspace (c : ascii) : bool :=
  let n := nat_of_ascii c in
  ((9 <=? n)%nat && (n <=? 13)%nat) || ((28 <=? n)%nat && (n <=? 32)%nat).

Fixpoint lstrip (s : string) : string :=
  match s with
  | EmptyString => EmptyString
  | String c s' => if isspace c then lstrip s' else s
  end.

Fixpoint rstrip (s : string) : string :=
  match s with
  | EmptyString => EmptyString
  | String c s' =>
      match rstrip s' with
      | EmptyString => if isspace c then EmptyString else String c EmptyString
      | r => String c r
      end
  end.

(** [s.strip()] *)
Definition strip (s : string) : string := rstrip (lstrip s).

(** [s.split(sep)] for a one-character separator; never the empty list. *)
Fixpoint split (sep : ascii) (s : string) : list string :=
  match s with
  | EmptyString => [EmptyString]
  | String c s' =>
      if Ascii.eqb c sep then EmptyString :: split sep s'
      else match split sep s' with
           | h :: t => String c h :: t
           | [] => [String c EmptyString]
           end
  end.

(** ["".join(l)] *)
Definition concat (l : list string) : string := String.concat "" l.

(** [sep.join(l)] *)
Definition join (sep : string) (l : list string) : string := String.concat sep l.

(** [s.startswith(p)] *)
Fixpoint startswith (p s : string) : bool :=
  match p, s with
  | EmptyString, _ => true
  | String a p', String b s' => Ascii.eqb a b && startswith p' s'
  | String _ _, EmptyString => false
  end.

Fixpoint endswith_char (c : ascii) (s : string) : bool :=
  match s with
  | EmptyString => false
  | String a EmptyString => Ascii.eqb a c
  | String _ s' => endswith_char c s'
  end.

(** Truth value of a [str]. *)
Definition truthy (s : string) : bool := negb (s =? "").

(** Truth value of an [Optional[str]]. *)
Definition truthy_opt (o : option string) : bool :=
  match o with
  | None => false
  | Some s => truthy s
  end.

(** What an f-string prints for an [Optional[str]]. *)
Definition format_opt (o : option string) : string :=
  match o with
  | None => "None"
  | Some s => s
  end.

(** [str(n)] for an [int]. *)
Definition str_of_int (z : Z) : string := NilZero.string_of_int (Z.to_int z).

(** [x in l] for a list of [str]. *)
Definition contains (x : string) (l : list string) : bool :=
  existsb (String.eqb x) l.

(** [d.get(k)] on a dict kept as an association list. *)
Fixpoint get {V : Type} (k : string) (d : list (string * V)) : option V :=
  match d with
  | [] => None
  | (k', v) :: d' => if k =? k' then Some v else get k d'
  end.

(** [d.get(k, default)] *)
Definition get_default {V : Type} (k : string) (default : V)
    (d : list (string * V)) : V :=
  match get k d with
  | Some v => v
  | None => default
  end.

End Py.

(** ** [os.path.join] (POSIX) *)

Module OsPath.

(** One round of the loop in [posixpath.join]. *)
Definition join2 (path b : string) : string :=
  if Py.startswith "/" b then b
  else if (path =? "") || Py.endswith_char "/" path then path ++ b
  else path ++ "/" ++ b.

Definition join (a : string) (p : list string) : string :=
  fold_left join2 p a.

End OsPath.

(** ** The world the script runs in *)

(** A path names a regular file with its text, a directory with the names
    [os.listdir] gives, or nothing. *)
Inductive node : Type :=
| File (text : string)
| Dir (names : list string).

(** The value [json.loads] returns; a [JDict] lists the items of the dict,
    keys distinct, and numbers are the integers positions are made of. *)
#[local] Unset Elimination Schemes.
Inductive json : Type :=
| JNull
| JBool (b : bool)
| JNum (n : Z)
| JStr (s : string)
| JList (l : list json)
| JDict (kvs : list (string * json)).
#[local] Set Elimination Schemes.

(** [subprocess.CompletedProcess], with both streams already decoded. *)
Record CompletedProcess : Type := {
  returncode : Z;
  stdout : string;
  stderr : string
}.

Inductive exn : Type :=
| FileNotFoundError
| IsADirectoryError
| NotADirectoryError
| JSONDecodeError
| KeyError (k : string)
| TypeError
| UnboundLocalError.

(** How a computation ends: a value, [sys.exit(code)], or an exception
    nobody catches. *)
Inductive outcome (A : Type) : Type :=
| Ok (a : A)
| Exit (status : Z)
| Raise (e : exn).
Arguments Ok {A} a.
Arguments Exit {A} status.
Arguments Raise {A} e.

(** The single rule of a Rule Configuration ([sgrep_config_default]);
    [rule_patterns] holds the ["pattern"] of each one-key dict. *)
Record rule : Type := {
  rule_id : string;
  rule_patterns : list string;
  rule_message : string;
  rule_languages : list string;
  rule_severity : string
}.

Record config : Type := { rules : list rule }.

(** A highlight range [{"start": ..., "end": ...}]. *)
Record highlight : Type := {
  h_start : json;
  h_end : json
}.

(** The dict built for one (language, category, subcategory); the fields
    are in the order of the dict display, which is its key order. *)
Record entry : Type := {
  pattern : option string;
  pattern_path : string;
  code : option string;
  code_path : string;
  highlights : list highlight
}.

(** An element of a subcategory's list as [cheatsheet_to_html] may meet it:
    the dict [generate_cheatsheet] appends, or a 5-tuple. *)
Inductive pyentry : Type :=
| EntryDict (e : entry)
| EntryTuple (sgrep_pattern : option string) (sgrep_path : string)
    (code_snippet : option string) (snippet_path : string)
    (hl : list highlight).

(** [language -> feature name -> subcategory name -> entries], every level
    in insertion order. *)
Definition cheatsheet : Type :=
  list (string * list (string * list (string * list pyentry))).

Record World : Type := {
  (** what is at a path *)
  fs : string -> option node;
  (** [os.path.relpath(path, start)] *)
  relpath : string -> string -> string;
  (** the name [tempfile.NamedTemporaryFile] hands out *)
  tmp_name : string;
  (** [yaml.dump] to a string *)
  yaml_dump : config -> string;
  (** the matcher: the command line and the text of the configuration file *)
  subprocess_run : list string -> string -> CompletedProcess;
  (** [json.loads]; [None] when it raises *)
  json_loads : string -> option json;
  (** [json.dumps(_, indent=4, separators=(",", ": "))] *)
  json_dumps : cheatsheet -> string
}.

(** What the run does to the outside, in order; [EvOpen] is a file opened
    for writing, which creates it or empties it. *)
Inductive event : Type :=
| EvPrint (s : string)
| EvPrintList (l : list string)
| EvRun (cmd : list string) (config_text : string) (res : CompletedProcess)
| EvOpen (file : string)
| EvWrite (file : string) (s : string).

(** ** A log-and-outcome monad *)

Definition M (A : Type) : Type := (list event * outcome A)%type.

Definition ret {A : Type} (a : A) : M A := ([], Ok a).

Definition bind {A B : Type} (m : M A) (f : A -> M B) : M B :=
  match m with
  | (l, Ok a) => let (l', r) := f a in ((l ++ l')%list, r)
  | (l, Exit c) => (l, Exit c)
  | (l, Raise e) => (l, Raise e)
  end.

Definition emit (ev : event) : M unit := ([ev], Ok tt).
Definition sys_exit {A : Type} (c : Z) : M A := ([], Exit c).
Definition raise {A : Type} (e : exn) : M A := ([], Raise e).

Notation "x <- m ;; k" := (bind m (fun x => k))
  (at level 61, m at next level, right associativity).
Notation "m ;;; k" := (bind m (fun _ => k))
  (at level 61, right associativity).

(** A [for] loop that threads what it updates. *)
Fixpoint for_each {A S : Type} (l : list A) (body : S -> A -> M S) (s : S)
    : M S :=
  match l with
  | [] => ret s
  | x :: l' => s' <- body s x ;; for_each l' body s'
  end.

(** ** [collections.defaultdict] *)

Section DefaultDict.

Variables K V : Type.
Variable eqb : K -> K -> bool.

(** [d[k]] read without inserting. *)
Fixpoint dd_get (k : K) (d : list (K * V)) : option V :=
  match d with
  | [] => None
  | (k', v) :: d' => if eqb k k' then Some v else dd_get k d'
  end.

(** [d[k] = f(d[k])] where a missing key starts from [default] and goes
    last in the iteration order. *)
Fixpoint dd_update (k : K) (default : V) (f : V -> V) (d : list (K * V))
    : list (K * V) :=
  match d with
  | [] => [(k, f default)]
  | (k', v) :: d' =>
      if eqb k k' then (k', f v) :: d' else (k', v) :: dd_update k default f d'
  end.

End DefaultDict.

(** ** The script's tables *)

Definition FEATURES : list string := ["dots"; "equivalence"; "metavar"; "misc"].

Definition VERBOSE_REGEXP_SYNTAX : string :=
  "OCaml Syntax: " ++ Py.dq ++ "=~/<regexp>/" ++ Py.dq.

Definition VERBOSE_FEATURE_NAME : list (string * string) :=
  [ ("dots", "Wildcard Matches (...)");
    ("equivalence", "Helpful Features");
    ("metavar", "Named Placeholders ($X)");
    ("misc", "Others");
    ("metavar_equality", "Reoccurring Expressions");
    ("concrete", "Exact Matches");
    ("regexp", "Regular Expressions");
    ("deep", "Deep (Recursive) Matching") ].

Definition VERBOSE_SUBCATEGORY_NAME : list (string * string) :=
  [ ("stmt", "Statement");
    ("stmts", "Statements");
    ("call", "Function Call");
    ("eq", "Equality Constraints");
    ("nested_stmts", "Nested Statements");
    ("cond", "Conditionals");
    ("arg", "Argument");
    ("args", "Arguments");
    ("import", "Imports");
    ("string", "Strings");
    ("expr", "Expressions");
    ("var", "Variables");
    ("naming_import", "Import Renaming/Aliasing");
    ("constant_propagation", "Constant Propagation");
    ("fieldname", "Field Names");
    ("syntax", "Single Statements");
    ("exprstmt", "Expression and Statement") ].

Definition LANGUAGE_EXCEPTIONS : list (string * list string) :=
  [ ("java", ["naming_import"]);
    ("c", ["naming_import"]);
    ("ruby", ["naming_import"; "typed"]);
    ("python", ["typed"]);
    ("js", ["typed"]) ].

Definition EXCLUDE : list string := ["TODO"; "POLYGLOT"; "e2e"; "OTHER"].

Definition CHEATSHEET_ENTRIES : list (string * list string) :=
  [ ("concrete", ["syntax"]);
    ("dots", ["args"; "string"; "stmts"; "nested_stmts"]);
    ("metavar", ["call"; "arg"; "stmt"; "cond"; "import"; "typed"]);
    ("regexp", ["string"]);
    ("metavar_equality", ["expr"; "stmt"; "var"]);
    ("equivalence", ["naming_import"; "constant_propagation"]) ].

(** ** Functions that touch nothing outside *)

(** The test [len(pattern.split("\n")) > 1] of [_single_pattern_to_dict]. *)
Definition spans_lines (pattern : string) : bool :=
  (1 <? List.length (Py.split Py.lf_char pattern))%nat.

Definition _single_pattern_to_dict (pattern language : string) : config :=
  let pattern := Py.strip pattern in
  let pattern :=
    if spans_lines pattern then pattern ++ Py.lf else pattern in
  {| rules :=
       [ {| rule_id := "default-example";
            rule_patterns := [pattern];
            rule_message := "msg";
            rule_languages := [language];
            rule_severity := "WARNING" |} ] |}.

Definition lang_dir_to_ext (lang : string) : string :=
  let LANG_DIR_TO_EXT := [("python", "py"); ("ruby", "rb")] in
  Py.get_default lang lang LANG_DIR_TO_EXT.

(** The three markers of [get_emoji], as the UTF-8 text of U+1F6A7
    (construction sign), U+1F536 (large orange diamond) and U+2705 (white
    heavy check mark). *)
Definition utf8 (bytes : list nat) : string :=
  string_of_list_ascii (map ascii_of_nat bytes).

Definition construction_sign : string := utf8 [240; 159; 154; 167]%nat.
Definition orange_diamond : string := utf8 [240; 159; 148; 182]%nat.
Definition check_mark : string := utf8 [226; 156; 133]%nat.

Definition get_emoji (count : Z) : string :=
  if (count =? 0)%Z then construction_sign
  else if (count <? 5)%Z then orange_diamond
  else check_mark.

(** ** Rendering to HTML *)

Definition CSS : string := "
.pattern {
    background-color: #0974d7;
    color: white;
    padding: 10px;
}

.match {
    background-color: white;
    padding: 10px;
    border: 1px solid #0974d7;
    color: black;
}

.pair {
    display: flex;
    width: 100%;
    font-family: Consolas, Bitstream Vera Sans Mono, Courier New, Courier, monospace;
    font-size: 1em;
}

.example {
    padding: 10px;
    margin: 10px;
    border: 1px solid #ccc;
}

.examples {
    display: flex;
}

a {
    text-decoration: none;
    color: inherit;
}

pre {
    margin: 0;
}

.example-category {
    width: fit-content;
    border-top: 1px solid #ddd;
}

.notimplemented {
    background-color: yellow;
}

h3 {
    margin: 0;
    margin-bottom: 10px;
}
".

(** [v] between double quotes. *)
Definition quoted (v : string) : string := Py.dq ++ v ++ Py.dq.

Definition snippet_and_pattern_to_html (sgrep_pattern : option string)
    (sgrep_path : string) (code_snippets : list (option string * string))
    : string :=
  let s := "" in
  if Py.truthy_opt sgrep_pattern then
    let s := s ++ "<div class=" ++ quoted "pattern" ++ "><a href="
               ++ quoted sgrep_path ++ "><pre>" ++ Py.format_opt sgrep_pattern
               ++ "</pre></a></div>" in
    if negb (List.length
               (filter (fun x => Py.truthy_opt (fst x)) code_snippets) =? 0)%nat
    then
      let snippets_html :=
        Py.concat
          (map (fun '(snippet, path) =>
                  "<div class=" ++ quoted "match" ++ "><a href=" ++ quoted path
                  ++ "><pre>" ++ Py.format_opt snippet ++ "</pre></a></div>")
               code_snippets) in
      s ++ "<div>" ++ snippets_html ++ "</div>"
    else
      "<div class=" ++ quoted "notimplemented"
      ++ ">This is missing an example!<br/>Or it doesn't work yet for this language!<br/>Edit "
      ++ sgrep_path ++ "</div>"
  else "".

Definition wrap_in_div (L : list string) (className : string) : string :=
  Py.concat (map (fun i => "<div class=" ++ className ++ ">" ++ i ++ "</div>") L).

(** What [for (sgrep_pattern, sgrep_path, code_snippet, code_path, _) in
    entries] binds its first four names to.  Iterating a dict gives its
    keys, in insertion order; a 5-tuple gives its components. *)
Definition unpack (e : pyentry)
    : option string * string * option string * string :=
  match e with
  | EntryDict _ => (Some "pattern", "pattern_path", Some "code", "code_path")
  | EntryTuple sgrep_pattern sgrep_path code_snippet snippet_path _ =>
      (sgrep_pattern, sgrep_path, code_snippet, snippet_path)
  end.

(** Equality of [(sgrep_pattern, sgrep_path)] keys. *)
Definition key_eqb (a b : option string * string) : bool :=
  match fst a, fst b with
  | Some x, Some y => x =? y
  | None, None => true
  | _, _ => false
  end && (snd a =? snd b).

(** The [by_pattern] dict a subcategory's entries give. *)
Definition by_pattern (entries : list pyentry)
    : list ((option string * string) * list (option string * string)) :=
  fold_left
    (fun by_pattern e =>
       let '(sgrep_pattern, sgrep_path, code_snippet, snippet_path) := unpack e in
       dd_update key_eqb (sgrep_pattern, sgrep_path) []
         (fun l => (l ++ [(code_snippet, snippet_path)])%list) by_pattern)
    entries [].

(** One round of the innermost loop of [cheatsheet_to_html]: the
    [<div class="example">] of one subcategory. *)
Definition example_html (subcategory : string) (entries : list pyentry)
    : string :=
  let compiled_examples :=
    map (fun '((pattern, pattern_path), snippets) =>
           snippet_and_pattern_to_html pattern pattern_path snippets)
        (by_pattern entries) in
  let html := wrap_in_div compiled_examples "pair" in
  "<div class=" ++ quoted "example" ++ "><h3>" ++ subcategory ++ "</h3>"
  ++ html ++ "</div>".

Definition cheatsheet_to_html (cheatsheet : cheatsheet) : string :=
  let s := "" in
  let s := s ++ "<head><style>" ++ CSS ++ "</style></head><body>" in
  let s :=
    fold_left
      (fun s '(lang, categories) =>
         let s := s ++ "<h2>" ++ lang ++ "</h2>" in
         fold_left
           (fun s '(category, subcategories) =>
              let examples :=
                map (fun '(subcategory, entries) =>
                       example_html subcategory entries)
                    subcategories in
              s ++ "<div class=" ++ quoted "example-category" ++ "><h2>"
              ++ category ++ "</h2><div class=" ++ quoted "examples" ++ ">"
              ++ Py.concat examples ++ "</div></div>")
           categories s)
      cheatsheet s in
  s ++ "</body>".

(** ** Functions that read the world *)

Section Script.

Variable W : World.

(** [os.path.exists] *)
Definition exists_ (path : string) : bool :=
  match fs W path with
  | Some _ => true
  | None => false
  end.

(** [os.path.isdir] *)
Definition isdir (path : string) : bool :=
  match fs W path with
  | Some (Dir _) => true
  | _ => false
  end.

(** [os.listdir] *)
Definition listdir (path : string) : M (list string) :=
  match fs W path with
  | Some (Dir names) => ret names
  | Some (File _) => raise NotADirectoryError
  | None => raise FileNotFoundError
  end.

(** [open(path).read()] *)
Definition open_read (path : string) : M string :=
  match fs W path with
  | Some (File text) => ret text
  | Some (Dir _) => raise IsADirectoryError
  | None => raise FileNotFoundError
  end.

Definition find_path (root_dir lang category subcategory extension : string)
    : string :=
  let base_path :=
    OsPath.join root_dir [lang; category ++ "_" ++ subcategory] in
  let joined := base_path ++ "." ++ extension in
  if exists_ joined then joined
  else
    let generic_base_path :=
      OsPath.join root_dir ["POLYGLOT"; category ++ "_" ++ subcategory] in
    let joined := generic_base_path ++ "." ++ extension in
    joined.

Definition _config_to_string (c : config) : string := yaml_dump W c.

Definition run_semgrep_on_example (lang config_arg_str code_path : string)
    : M string :=
  pattern_text <- open_read config_arg_str ;;
  let config_text :=
    _config_to_string (_single_pattern_to_dict pattern_text lang) in
  let cmd := ["semgrep"; "--json"; "--config=" ++ tmp_name W; code_path] in
  emit (EvPrint (">>> " ++ Py.join " " cmd)) ;;;
  let output := subprocess_run W cmd config_text in
  emit (EvRun cmd config_text output) ;;;
  if (returncode output =? 0)%Z then
    emit (EvPrint (stderr output)) ;;;
    ret (stdout output)
  else
    emit (EvPrint ("ERROR: " ++ Py.str_of_int (returncode output))) ;;;
    emit (EvPrintList cmd) ;;;
    sys_exit 1.

Definition read_if_exists (path : string) : M (option string) :=
  if Py.truthy path && exists_ path then
    text <- open_read path ;;
    ret (Some text)
  else ret None.

Definition get_language_directories (dir_name : string) : M (list string) :=
  files <- listdir dir_name ;;
  ret (filter
         (fun f => isdir (OsPath.join dir_name [f]) && negb (Py.contains f EXCLUDE))
         files).

(** [j[k]] on what [json.loads] returned. *)
Definition json_getitem (j : json) (k : string) : M json :=
  match j with
  | JDict kvs =>
      match Py.get k kvs with
      | Some v => ret v
      | None => raise (KeyError k)
      end
  | _ => raise TypeError
  end.

(** The elements [for entry in j] goes through. *)
Definition json_iter (j : json) : M (list json) :=
  match j with
  | JList l => ret l
  | JDict kvs => ret (map (fun kv => JStr (fst kv)) kvs)
  | JStr s =>
      ret (map (fun c => JStr (String c EmptyString)) (list_ascii_of_string s))
  | _ => raise TypeError
  end.

(** Lines 171-179: the highlights of one example. *)
Definition compute_highlights (lang sgrep_path code_path : string)
    : M (list highlight) :=
  let highlights := [] in
  if exists_ sgrep_path && exists_ code_path then
    ranges <- run_semgrep_on_example lang sgrep_path code_path ;;
    if Py.truthy ranges then
      match json_loads W ranges with
      | None => raise JSONDecodeError
      | Some j =>
          results <- json_getitem j "results" ;;
          entries <- json_iter results ;;
          for_each entries
            (fun highlights entry =>
               st <- json_getitem entry "start" ;;
               en <- json_getitem entry "end" ;;
               ret (highlights ++ [ {| h_start := st; h_end := en |} ])%list)
            highlights
      end
    else ret highlights
  else ret highlights.

(** [output[lang][feature_name][subcategory_name].append(entry)] on the
    nested [defaultdict]. *)
Definition append_entry (lang feature_name subcategory_name : string)
    (e : pyentry) (output : cheatsheet) : cheatsheet :=
  dd_update String.eqb lang []
    (dd_update String.eqb feature_name []
       (dd_update String.eqb subcategory_name []
          (fun l => (l ++ [e])%list)))
    output.

Definition feature_name_of (category : string) : string :=
  Py.get_default category category VERBOSE_FEATURE_NAME.

Definition subcategory_name_of (category subcategory : string) : string :=
  let subcategory_name :=
    Py.get_default subcategory subcategory VERBOSE_SUBCATEGORY_NAME in
  if (category =? "regexp") && (subcategory =? "string")
  then VERBOSE_REGEXP_SYNTAX
  else subcategory_name.

Definition language_exception (lang category subcategory : string) : bool :=
  Py.contains (feature_name_of category)
    (Py.get_default lang [] LANGUAGE_EXCEPTIONS)
  || Py.contains subcategory (Py.get_default lang [] LANGUAGE_EXCEPTIONS).

(** Lines 166-187: the entry of one (language, category, subcategory). *)
Definition build_entry (root_dir lang category subcategory : string)
    : M entry :=
  let sgrep_path := find_path root_dir lang category subcategory "sgrep" in
  let code_path :=
    find_path root_dir lang category subcategory (lang_dir_to_ext lang) in
  highlights <- compute_highlights lang sgrep_path code_path ;;
  pattern_text <- read_if_exists sgrep_path ;;
  code_text <- read_if_exists code_path ;;
  ret {| pattern := pattern_text;
         pattern_path := relpath W sgrep_path root_dir;
         code := code_text;
         code_path := relpath W code_path root_dir;
         highlights := highlights |}.

(** The body of the innermost loop of [generate_cheatsheet]. *)
Definition cheatsheet_step (root_dir lang category : string)
    (output : cheatsheet) (subcategory : string) : M cheatsheet :=
  entry <- build_entry root_dir lang category subcategory ;;
  let feature_name := feature_name_of category in
  let subcategory_name := subcategory_name_of category subcategory in
  if negb (language_exception lang category subcategory) then
    ret (append_entry lang feature_name subcategory_name (EntryDict entry) output)
  else ret output.

Definition generate_cheatsheet (root_dir : string) : M cheatsheet :=
  let output := [] in
  langs <- get_language_directories root_dir ;;
  for_each langs
    (fun output lang =>
       for_each CHEATSHEET_ENTRIES
         (fun output '(category, subcategories) =>
            for_each subcategories (cheatsheet_step root_dir lang category)
              output)
         output)
    output.

(** The options of a command line that argparse accepts, which are also
    the namespace [parse_args] returns. *)
Record Args : Type := {
  directory : string;
  output_file : option string;
  json_flag : bool;
  html_flag : bool
}.

(** [parse_args] on a command line that argparse accepts, [options] being
    what it holds: [argparse.FileType("w")] opens the file of
    [--output-file] for writing while the arguments are parsed, and the
    namespace returned holds the options.  A command line that argparse
    refuses ends the program inside argparse; it is not modelled. *)
Definition parse_args (options : Args) : M Args :=
  match output_file options with
  | Some file => emit (EvOpen file) ;;; ret options
  | None => ret options
  end.

Definition main (options : Args) : M unit :=
  args <- parse_args options ;;
  cheatsheet <- generate_cheatsheet (directory args) ;;
  output <-
    (if json_flag args then ret (json_dumps W cheatsheet)
     else if html_flag args then ret (cheatsheet_to_html cheatsheet)
     else raise UnboundLocalError) ;;
  match output_file args with
  | Some f => emit (EvWrite f output)
  | None => emit (EvPrint output)
  end.

End Script.

(** The status the process ends with. *)
Definition exit_status {A : Type} (o : outcome A) : Z :=
  match o with
  | Ok _ => 0
  | Exit status => status
  | Raise _ => 1
  end.

(** ** Two small worlds to run the script in *)

Module Fixture.

(** What the matcher prints for one match from line 1, column 1 to line 1,
    column 5. *)
Definition one_match_text : string :=
  "{" ++ quoted "results" ++ ": [{" ++ quoted "start" ++ ": {"
  ++ quoted "line" ++ ": 1, " ++ quoted "col" ++ ": 1}, " ++ quoted "end"
  ++ ": {" ++ quoted "line" ++ ": 1, " ++ quoted "col" ++ ": 5}}]}".

Definition position (line col : Z) : json :=
  JDict [("line", JNum line); ("col", JNum col)].

Definition one_match : json :=
  JDict [("results",
          JList [JDict [("start", position 1 1); ("end", position 1 5)]])].

(** A root with [python/dots_args.py] and [python/dots_args.sgrep] and
    nothing else to match; [README] is a file, [POLYGLOT] is empty. *)
Definition python_tree : list (string * node) :=
  [ ("root", Dir ["python"; "POLYGLOT"; "README"]);
    ("root/python", Dir ["dots_args.py"; "dots_args.sgrep"]);
    ("root/POLYGLOT", Dir []);
    ("root/README", File "examples");
    ("root/python/dots_args.py", File "foo(1)");
    ("root/python/dots_args.sgrep", File ("foo(...)" ++ Py.lf)) ].

(** [relpath] for paths below the start directory. *)
Definition relpath_below (path start : string) : string :=
  substring (S (String.length start)) (String.length path) path.

Definition world_of (tree : list (string * node))
    (run : list string -> string -> CompletedProcess) : World :=
  {| fs := fun path => Py.get path tree;
     relpath := relpath_below;
     tmp_name := "/tmp/tmpconfig";
     yaml_dump := fun c => Py.join Py.lf (flat_map rule_patterns (rules c));
     subprocess_run := run;
     json_loads := fun s => if s =? one_match_text then Some one_match else None;
     json_dumps := fun _ => "{}" |}.

(** The matcher finds the one match. *)
Definition python_world : World :=
  world_of python_tree
    (fun _ _ => {| returncode := 0; stdout := one_match_text; stderr := "" |}).

(** The matcher exits with status 2. *)
Definition failing_world : World :=
  world_of python_tree
    (fun _ _ => {| returncode := 2; stdout := ""; stderr := "bad pattern" |}).

(** The matcher exits with status 0 and prints nothing. *)
Definition silent_world : World :=
  world_of python_tree
    (fun _ _ => {| returncode := 0; stdout := ""; stderr := "" |}).

(** Two entries as [generate_cheatsheet] builds them, with different
    patterns. *)
Definition entry_foo : entry :=
  {| pattern := Some "foo(...)";
     pattern_path := "python/dots_args.sgrep";
     code := Some "foo(1)";
     code_path := "python/dots_args.py";
     highlights := [] |}.

Definition entry_bar : entry :=
  {| pattern := Some "bar($X)";
     pattern_path := "python/metavar_call.sgrep";
     code := Some "bar(2)";
     code_path := "python/metavar_call.py";
     highlights := [] |}.

(** The components of an entry as a 5-tuple. *)
Definition as_tuple (e : entry) : pyentry :=
  EntryTuple (pattern e) (pattern_path e) (code e) (code_path e) (highlights e).

Definition html_args : Args :=
  {| directory := "root"; output_file := Some "out.html";
     json_flag := false; html_flag := true |}.

End Fixture.

(** ** Notions the properties are stated with *)

(** The pattern a reader of the specification would embed: the text with a
    line feed appended when it spans several lines. *)
Definition pattern_as_specified (text : string) : string :=
  if spans_lines text then text ++ Py.lf else text.

(** The patterns a configuration embeds. *)
Definition embedded_patterns (c : config) : list string :=
  flat_map rule_patterns (rules c).

(** The block shown when a pattern has no snippet to go with it. *)
Definition placeholder (sgrep_path : string) : string :=
  "<div class=" ++ quoted "notimplemented"
  ++ ">This is missing an example!<br/>Or it doesn't work yet for this language!<br/>Edit "
  ++ sgrep_path ++ "</div>".

Definition pattern_block (sgrep_path text : string) : string :=
  "<div class=" ++ quoted "pattern" ++ "><a href=" ++ quoted sgrep_path
  ++ "><pre>" ++ text ++ "</pre></a></div>".

Definition match_block (snippet : option string * string) : string :=
  "<div class=" ++ quoted "match" ++ "><a href=" ++ quoted (snd snippet)
  ++ "><pre>" ++ Py.format_opt (fst snippet) ++ "</pre></a></div>".

(** The three lines a failed matcher run leaves at the end of the log. *)
Definition fatal_tail (cmd : list string) (config_text : string)
    (res : CompletedProcess) : list event :=
  [ EvRun cmd config_text res;
    EvPrint ("ERROR: " ++ Py.str_of_int (returncode res));
    EvPrintList cmd ].

(** A matcher run that exited with a status other than 0. *)
Definition failed_run (ev : event) : Prop :=
  match ev with
  | EvRun _ _ res => returncode res <> 0%Z
  | _ => False
  end.

(** A log in which every matcher run exited with status 0 and no file was
    opened or written. *)
Definition clean (log : list event) : Prop :=
  Forall (fun ev =>
            match ev with
            | EvRun _ _ res => returncode res = 0%Z
            | EvOpen _ => False
            | EvWrite _ _ => False
            | _ => True
            end) log.

(** What [parse_args] logs. *)
Definition opened (args : Args) : list event :=
  match output_file args with
  | Some file => [EvOpen file]
  | None => []
  end.

(** An event that creates, empties or fills a file. *)
Definition touches_file (ev : event) : Prop :=
  match ev with
  | EvOpen _ => True
  | EvWrite _ _ => True
  | _ => False
  end.

(** What [main] does once the arguments are parsed. *)
Definition after_parsing (W : World) (args : Args) : M unit :=
  cheatsheet <- generate_cheatsheet W (directory args) ;;
  output <-
    (if json_flag args then ret (json_dumps W cheatsheet)
     else if html_flag args then ret (cheatsheet_to_html cheatsheet)
     else raise UnboundLocalError) ;;
  match output_file args with
  | Some f => emit (EvWrite f output)
  | None => emit (EvPrint output)
  end.

(** What holds of every computation of the script between the parsing of
    the arguments and the final write:
    it exits only with status 1 and only right after the one failed matcher
    run of its log. *)
Definition sound {A : Type} (m : M A) : Prop :=
  match snd m with
  | Exit status =>
      status = 1%Z
      /\ exists before cmd config_text res,
           fst m = (before ++ fatal_tail cmd config_text res)%list
           /\ returncode res <> 0%Z
           /\ clean before
  | _ => clean (fst m)
  end.

(** [doc[lang][feature_name][subcategory_name]] read without inserting:
    [None] when one of the three keys is not in the document. *)
Definition lookup (doc : cheatsheet)
    (lang feature_name subcategory_name : string) : option (list pyentry) :=
  match dd_get String.eqb lang doc with
  | None => None
  | Some features =>
      match dd_get String.eqb feature_name features with
      | None => None
      | Some subcategories => dd_get String.eqb subcategory_name subcategories
      end
  end.

(** The (category, subcategory) pairs of [CHEATSHEET_ENTRIES], in the order
    the two inner loops of [generate_cheatsheet] meet them. *)
Definition documented_pairs : list (string * string) :=
  flat_map (fun '(category, subcategories) => map (pair category) subcategories)
    CHEATSHEET_ENTRIES.

(** Every (language, (category, subcategory)) the three loops go through. *)
Definition triples (langs : list string) : list (string * (string * string)) :=
  flat_map (fun lang => map (pair lang) documented_pairs) langs.

(** The world with another [json.loads]. *)
Definition with_json_loads (W : World) (loads : string -> option json) : World :=
  {| fs := fs W;
     relpath := relpath W;
     tmp_name := tmp_name W;
     yaml_dump := yaml_dump W;
     subprocess_run := subprocess_run W;
     json_loads := loads;
     json_dumps := json_dumps W |}.

Definition or_nil {A : Type} (o : option (list A)) : list A :=
  match o with
  | Some l => l
  | None => []
  end.

(** A dict value after [l] was appended to it, one element at a time. *)
Definition extend {A : Type} (o : option (list A)) (l : list A)
    : option (list A) :=
  match l with
  | [] => o
  | _ => Some (or_nil o ++ l)%list
  end.

Section Steps.

(** What [build_entry] ends with at each place of the loops. *)
Variable entry_of : string * (string * string) -> outcome entry.

(** The step of the loops on the document alone. *)
Definition pure_step (doc : cheatsheet) (t : string * (string * string))
    : cheatsheet :=
  let '(lang, (category, subcategory)) := t in
  match entry_of t with
  | Ok e =>
      if negb (language_exception lang category subcategory) then
        append_entry lang (feature_name_of category)
          (subcategory_name_of category subcategory) (EntryDict e) doc
      else doc
  | _ => doc
  end.

(** What the step at [t] appends under the three keys. *)
Definition contribution (lang feature_name subcategory_name : string)
    (t : string * (string * string)) : list pyentry :=
  let '(lang', (category, subcategory)) := t in
  if (lang =? lang') && (feature_name =? feature_name_of category)
     && (subcategory_name =? subcategory_name_of category subcategory)
     && negb (language_exception lang' category subcategory)
  then match entry_of t with
       | Ok e => [EntryDict e]
       | _ => []
       end
  else [].

End Steps.

(** The body of the loops at one place, and the entry built there. *)
Definition step_at (W : World) (root_dir : string) (output : cheatsheet)
    (t : string * (string * string)) : M cheatsheet :=
  cheatsheet_step W root_dir (fst t) (fst (snd t)) output (snd (snd t)).

Definition entry_at (W : World) (root_dir : string)
    (t : string * (string * string)) : outcome entry :=
  snd (build_entry W root_dir (fst t) (fst (snd t)) (snd (snd t))).

(** The snippets of the entries whose first two components are the key
    [k], in the order of the entries. *)
Definition snippets_of (k : option string * string) (entries : list pyentry)
    : list (option string * string) :=
  flat_map
    (fun e =>
       let '(sgrep_pattern, sgrep_path, code_snippet, snippet_path) := unpack e in
       if key_eqb k (sgrep_pattern, sgrep_path)
       then [(code_snippet, snippet_path)]
       else [])
    entries.

(** One round of the loop that fills [by_pattern]. *)
Definition by_pattern_step
    (acc : list ((option string * string) * list (option string * string)))
    (e : pyentry)
    : list ((option string * string) * list (option string * string)) :=
  let '(sgrep_pattern, sgrep_path, code_snippet, snippet_path) := unpack e in
  dd_update key_eqb (sgrep_pattern, sgrep_path) []
    (fun l => (l ++ [(code_snippet, snippet_path)])%list) acc.

(** ** The coverage table *)

(** [append_td(l, name)] of [print_to_html]. *)
Definition append_td (l : list string) (name : string) : list string :=
  (l ++ ["<td>"; name; "</td>"])%list.

(** The list [tags] of [print_to_html] before it is joined; [stats] maps a
    language to its counts per feature, and [stats[lang]] is read for the
    keys of [stats] only. *)
Definition print_to_html_tags (stats : list (string * list (string * Z)))
    : list string :=
  let tags := ["<table style=" ++ quoted "text-align:center" ++ ">"; "<tr>"] in
  let languages := map fst stats in
  let tags := append_td tags "" in
  let tags :=
    fold_left (fun tags lang => append_td tags ("<b>" ++ lang ++ "</b>"))
      languages tags in
  let tags := (tags ++ ["</tr>"])%list in
  let tags :=
    fold_left
      (fun tags f =>
         let tags := (tags ++ ["<tr>"])%list in
         let tags :=
           append_td tags (Py.format_opt (Py.get f VERBOSE_FEATURE_NAME)) in
         let tags :=
           fold_left
             (fun tags lang =>
                append_td tags
                  (get_emoji
                     (Py.get_default f 0%Z (Py.get_default lang [] stats))))
             languages tags in
         (tags ++ ["</tr>"])%list)
      FEATURES tags in
  (tags ++ ["</table>"])%list.

Definition print_to_html (stats : list (string * list (string * Z))) : string :=
  Py.join Py.lf (print_to_html_tags stats).

Section Stats.

(** [glob.glob1(dirname, pattern)]: the names in the directory that match. *)
Variable glob1 : string -> string -> list string.

Definition compute_stats (dir_name lang_dir : string) : list (string * Z) :=
  let path := OsPath.join dir_name [lang_dir] in
  fold_left
    (fun count_per_feature f =>
       dd_update String.eqb f 0%Z
         (fun _ =>
            Z.of_nat
              (List.length
                 (glob1 path (f ++ "*." ++ lang_dir_to_ext lang_dir))))
         count_per_feature)
    FEATURES [].

End Stats.

(** The matcher runs of a log. *)
Definition runs (log : list event) : list event :=
  filter (fun ev => match ev with EvRun _ _ _ => true | _ => false end) log.

(** The writes of a log. *)
Definition writes (log : list event) : list event :=
  filter (fun ev => match ev with EvWrite _ _ => true | _ => false end) log.

(** The highlight of one result of the matcher; [None] when the result is
    no dict or lacks a position. *)
Definition highlight_of (result : json) : option highlight :=
  match result with
  | JDict kvs =>
      match Py.get "start" kvs, Py.get "end" kvs with
      | Some st, Some en => Some {| h_start := st; h_end := en |}
      | _, _ => None
      end
  | _ => None
  end.

(** ** More worlds *)

Module Fixture2.

(** A root whose only example is the pair (metavar, typed), which is an
    exception for Python. *)
Definition typed_tree : list (string * node) :=
  [ ("root", Dir ["python"]);
    ("root/python", Dir ["metavar_typed.py"; "metavar_typed.sgrep"]);
    ("root/python/metavar_typed.py", File "x: int = 1");
    ("root/python/metavar_typed.sgrep", File "$X: int = 1") ].

(** The matcher exits with status 2 there. *)
Definition typed_failing_world : World :=
  Fixture.world_of typed_tree
    (fun _ _ => {| returncode := 2; stdout := ""; stderr := "bad pattern" |}).

(** The matcher exits with status 0 and prints what is no JSON. *)
Definition garbage_world : World :=
  Fixture.world_of Fixture.python_tree
    (fun _ _ => {| returncode := 0; stdout := "Traceback"; stderr := "" |}).

(** The matcher prints JSON that has no ["results"]. *)
Definition no_results_world : World :=
  with_json_loads garbage_world
    (fun _ => Some (JDict [("errors", JList [])])).

(** The matcher prints a JSON list. *)
Definition list_world : World :=
  with_json_loads garbage_world (fun _ => Some (JList [])).

(** The matcher reports two matches. *)
Definition two_matches : json :=
  JDict [("results",
          JList [JDict [("check_id", JStr "default-example");
                        ("start", Fixture.position 1 1);
                        ("end", Fixture.position 1 5)];
                 JDict [("check_id", JStr "default-example");
                        ("start", Fixture.position 3 1);
                        ("end", Fixture.position 3 5)]]);
         ("errors", JList [])].

Definition two_matches_world : World :=
  with_json_loads garbage_world (fun _ => Some two_matches).

(** A root with a file, a reserved directory and nothing else. *)
Definition bare_tree : list (string * node) :=
  [ ("root", Dir ["README"; "POLYGLOT"]);
    ("root/README", File "examples");
    ("root/POLYGLOT", Dir ["dots_args.sgrep"]);
    ("root/POLYGLOT/dots_args.sgrep", File "foo(...)") ].

Definition bare_world : World :=
  Fixture.world_of bare_tree
    (fun _ _ => {| returncode := 0; stdout := ""; stderr := "" |}).

(** A root with two language directories and no example. *)
Definition two_languages_tree : list (string * node) :=
  [ ("root", Dir ["ruby"; "TODO"; "python"; "notes.txt"]);
    ("root/ruby", Dir []);
    ("root/TODO", Dir []);
    ("root/python", Dir []);
    ("root/notes.txt", File "") ].

Definition two_languages_world : World :=
  Fixture.world_of two_languages_tree
    (fun _ _ => {| returncode := 0; stdout := ""; stderr := "" |}).

End Fixture2.

(** The page of a document without languages. *)
Definition empty_page : string :=
  "<head><style>" ++ CSS ++ "</style></head><body></body>".

(** What [main] does last with its output. *)
Definition output_event (args : Args) (output : string) : event :=
  match output_file args with
  | Some file => EvWrite file output
  | None => EvPrint output
  end.

(** * Properties *)

(** ** Paths *)

Lemma append_assoc (a b c : string) : (a ++ b) ++ c = a ++ (b ++ c).
Proof.
  induction a as [|x a IH]; cbn; [reflexivity | now rewrite IH].
Qed.

Lemma endswith_char_app (c x : ascii) (a b : string) :
  Py.endswith_char c (a ++ String x b) = Py.endswith_char c (String x b).
Proof.
  induction a as [|y a IH]; [reflexivity|].
  change (String y a ++ String x b) with (String y (a ++ String x b)).
  rewrite <- IH. destruct a; reflexivity.
Qed.

Lemma endswith_char_app_nonempty (c : ascii) (a b : string) :
  b <> "" -> Py.endswith_char c (a ++ b) = Py.endswith_char c b.
Proof.
  destruct b as [|x b]; [congruence|]. intros _. apply endswith_char_app.
Qed.

Lemma startswith_slash_app (a b : string) :
  Py.startswith "/" a = false ->
  Py.startswith "/" (a ++ "_" ++ b) = false.
Proof.
  destruct a as [|c a]; [reflexivity|].
  intros H. exact H.
Qed.

(** With a root that does not end in a slash and plain names below it,
    [os.path.join] puts one slash between the components. *)
Lemma join_plain (root_dir lang category subcategory : string) :
  root_dir <> "" ->
  Py.endswith_char "/" root_dir = false ->
  lang <> "" ->
  Py.startswith "/" lang = false ->
  Py.endswith_char "/" lang = false ->
  Py.startswith "/" category = false ->
  OsPath.join root_dir [lang; category ++ "_" ++ subcategory]
  = root_dir ++ "/" ++ lang ++ "/" ++ category ++ "_" ++ subcategory.
Proof.
  intros Hroot Hend Hlang Hstart Hlend Hcat.
  unfold OsPath.join; cbn [fold_left].
  unfold OsPath.join2 at 2. rewrite Hstart, Hend.
  apply String.eqb_neq in Hroot; rewrite Hroot; cbn [orb].
  unfold OsPath.join2. rewrite (startswith_slash_app _ _ Hcat).
  replace (root_dir ++ "/" ++ lang) with ((root_dir ++ "/") ++ lang)
    by apply append_assoc.
  rewrite (endswith_char_app_nonempty _ _ Hlang), Hlend.
  assert (((root_dir ++ "/") ++ lang =? "") = false) as ->.
  { apply String.eqb_neq. destruct root_dir; [now apply String.eqb_neq in Hroot|discriminate]. }
  cbn [orb]. rewrite !append_assoc. reflexivity.
Qed.

(** C1.  [find_path] returns the language-specific path when a file is
    there; otherwise it returns the path below [POLYGLOT], whatever is or is
    not at that path.  For a plain root and plain names the two paths read
    [root/language/category_subcategory.extension] and
    [root/POLYGLOT/category_subcategory.extension]. *)
Theorem find_path_language_first (W : World)
    (root_dir lang category subcategory extension : string) :
  let specific :=
    OsPath.join root_dir [lang; category ++ "_" ++ subcategory]
    ++ "." ++ extension in
  let fallback :=
    OsPath.join root_dir ["POLYGLOT"; category ++ "_" ++ subcategory]
    ++ "." ++ extension in
  (exists_ W specific = true ->
   find_path W root_dir lang category subcategory extension = specific)
  /\ (exists_ W specific = false ->
      forall there : bool, exists_ W fallback = there ->
      find_path W root_dir lang category subcategory extension = fallback)
  /\ (root_dir <> "" -> Py.endswith_char "/" root_dir = false ->
      lang <> "" -> Py.startswith "/" lang = false ->
      Py.endswith_char "/" lang = false ->
      Py.startswith "/" category = false ->
      specific = root_dir ++ "/" ++ lang ++ "/" ++ category ++ "_"
                 ++ subcategory ++ "." ++ extension
      /\ fallback = root_dir ++ "/POLYGLOT/" ++ category ++ "_"
                    ++ subcategory ++ "." ++ extension).
Proof.
  intros specific fallback. unfold find_path. fold specific. fold fallback.
  repeat split.
  - intros ->. reflexivity.
  - intros -> _ _. reflexivity.
  - subst specific. rewrite join_plain by assumption.
    rewrite !append_assoc. reflexivity.
  - subst fallback.
    rewrite join_plain by (assumption || discriminate || reflexivity).
    rewrite !append_assoc. reflexivity.
Qed.

Lemma find_path_language_first_witness :
  find_path Fixture.python_world "root" "python" "dots" "args" "py"
  = "root/python/dots_args.py"
  /\ find_path Fixture.python_world "root" "ruby" "dots" "args" "rb"
     = "root/POLYGLOT/dots_args.rb"
  /\ exists_ Fixture.python_world "root/POLYGLOT/dots_args.rb" = false
  /\ OsPath.join "root" ["ruby"; "dots" ++ "_" ++ "args"] ++ "." ++ "rb"
     = "root" ++ "/" ++ "ruby" ++ "/" ++ "dots" ++ "_" ++ "args" ++ "." ++ "rb".
Proof.
  split; [|split; [|split]].
  - apply (proj1 (find_path_language_first Fixture.python_world
                    "root" "python" "dots" "args" "py")).
    reflexivity.
  - apply (proj1 (proj2 (find_path_language_first Fixture.python_world
                    "root" "ruby" "dots" "args" "rb"))) with (there := false);
      reflexivity.
  - reflexivity.
  - apply (proj2 (proj2 (find_path_language_first Fixture.python_world
                    "root" "ruby" "dots" "args" "rb")));
      first [discriminate | reflexivity].
Defined.

(** ** Coverage tiers *)

(** C5 as it is worded, at [count = -1]: the marker is the partial one
    although -1 is not in [1,5). *)
Lemma get_emoji_negative_is_partial :
  ~ (get_emoji (-1) = orange_diamond <-> (1 <= -1 < 5)%Z).
Proof.
  intros [H _]. specialize (H eq_refl). lia.
Qed.

Ltac tiers :=
  repeat split; try reflexivity; intros; try lia;
  match goal with
  | E : @eq string _ _ |- _ => vm_compute in E; discriminate E
  end.

(** C5, amended.  The marker is the missing one exactly at 0, the complete
    one exactly from 5 on, and the partial one exactly for the other
    integers below 5: these are 1..4 among the counts of files, and every
    negative integer as well. *)
Theorem get_emoji_tiers (count : Z) :
  (get_emoji count = construction_sign <-> count = 0%Z)
  /\ (get_emoji count = orange_diamond <-> (count < 5 /\ count <> 0)%Z)
  /\ (get_emoji count = check_mark <-> (5 <= count)%Z)
  /\ get_emoji 4 = orange_diamond
  /\ get_emoji 5 = check_mark.
Proof.
  unfold get_emoji.
  destruct (Z.eqb_spec count 0) as [->|Hz]; cbn.
  - tiers.
  - destruct (Z.ltb_spec count 5) as [Hlt|Hge]; tiers.
Qed.

(** ** The rule configuration *)

Lemma split_length (c : ascii) (s : string) :
  (1 <= List.length (Py.split c s))%nat.
Proof.
  induction s as [|a s IH]; cbn; [lia|].
  destruct (Ascii.eqb a c); cbn; [lia|].
  destruct (Py.split c s); cbn in *; lia.
Qed.

(** A text splits in more than one piece exactly when the separator occurs
    in it. *)
Lemma split_more_than_one (c : ascii) (s : string) :
  (1 <? List.length (Py.split c s))%nat = true
  <-> In c (list_ascii_of_string s).
Proof.
  induction s as [|a s IH]; cbn [Py.split list_ascii_of_string In].
  - split; [cbn; discriminate | tauto].
  - pose proof (split_length c s) as Hl.
    destruct (Ascii.eqb_spec a c) as [->|Hne].
    + cbn [List.length]. split; [auto | intros _; apply Nat.ltb_lt; lia].
    + destruct (Py.split c s) as [|h t] eqn:E; [cbn in Hl; lia|].
      cbn [List.length] in *. split.
      * intros H. right. now apply IH.
      * intros [H|H]; [congruence | now apply IH].
Qed.

(** C9 as it is worded, at the raw text [LF foo]: it spans two lines and
    still no line feed is appended; what is embedded is not the raw text,
    with or without a line feed. *)
Lemma raw_pattern_is_not_embedded :
  spans_lines (Py.lf ++ "foo") = true
  /\ embedded_patterns (_single_pattern_to_dict (Py.lf ++ "foo") "python")
     = ["foo"]
  /\ embedded_patterns (_single_pattern_to_dict (Py.lf ++ "foo") "python")
     <> [pattern_as_specified (Py.lf ++ "foo")]
  /\ embedded_patterns (_single_pattern_to_dict (Py.lf ++ "foo") "python")
     <> [Py.lf ++ "foo"].
Proof.
  split; [reflexivity|]. split; [reflexivity|]. split; discriminate.
Qed.

(** C9, amended.  The rule configuration has one rule, for the given
    language, whose pattern is the raw text stripped of the white space
    around it, with a line feed appended exactly when the stripped text
    still holds a line feed; and the configuration the matcher is run with
    is built from the text of the pattern file. *)
Theorem single_pattern_to_dict_strips (W : World)
    (raw lang sgrep_path code_path : string) :
  let embedded := pattern_as_specified (Py.strip raw) in
  _single_pattern_to_dict raw lang
  = {| rules := [ {| rule_id := "default-example";
                     rule_patterns := [embedded];
                     rule_message := "msg";
                     rule_languages := [lang];
                     rule_severity := "WARNING" |} ] |}
  /\ (In Py.lf_char (list_ascii_of_string (Py.strip raw))
      -> embedded = Py.strip raw ++ Py.lf)
  /\ (~ In Py.lf_char (list_ascii_of_string (Py.strip raw))
      -> embedded = Py.strip raw)
  /\ (fs W sgrep_path = Some (File raw) ->
      exists cmd res,
        In (EvRun cmd (yaml_dump W (_single_pattern_to_dict raw lang)) res)
           (fst (run_semgrep_on_example W lang sgrep_path code_path))).
Proof.
  intros embedded. subst embedded. unfold pattern_as_specified, spans_lines.
  split; [reflexivity|]. split; [|split].
  - intros H. apply split_more_than_one in H. now rewrite H.
  - intros H. destruct (1 <? _)%nat eqn:E; [|reflexivity].
    apply split_more_than_one in E. contradiction.
  - intros Hfs. unfold run_semgrep_on_example, open_read. rewrite Hfs.
    do 2 eexists. unfold _config_to_string.
    cbn [bind ret emit fst].
    destruct (returncode _ =? 0)%Z; cbn; right; left; reflexivity.
Qed.

Lemma single_pattern_to_dict_strips_witness :
  pattern_as_specified (Py.strip ("a" ++ Py.lf ++ "b" ++ Py.lf))
  = "a" ++ Py.lf ++ "b" ++ Py.lf
  /\ pattern_as_specified (Py.strip ("foo(...)" ++ Py.lf)) = "foo(...)"
  /\ exists cmd res,
       In (EvRun cmd "foo(...)" res)
          (fst (run_semgrep_on_example Fixture.python_world "python"
                  "root/python/dots_args.sgrep" "root/python/dots_args.py")).
Proof.
  split; [|split].
  - apply (proj1 (proj2 (single_pattern_to_dict_strips Fixture.python_world
                           ("a" ++ Py.lf ++ "b" ++ Py.lf) "python" "" ""))).
    cbn. right; left; reflexivity.
  - apply (proj1 (proj2 (proj2 (single_pattern_to_dict_strips
                           Fixture.python_world
                           ("foo(...)" ++ Py.lf) "python" "" "")))).
    cbn. intros H. repeat (destruct H as [H|H]; [discriminate H|]). exact H.
  - apply (proj2 (proj2 (proj2 (single_pattern_to_dict_strips
                           Fixture.python_world ("foo(...)" ++ Py.lf) "python"
                           "root/python/dots_args.sgrep"
                           "root/python/dots_args.py")))).
    reflexivity.
Defined.

(** ** Rendering one pattern with its snippets *)

Lemma truthy_opt_false (o : option string) :
  Py.truthy_opt o = false <-> o = None \/ o = Some "".
Proof.
  destruct o as [s|]; cbn; [|tauto].
  unfold Py.truthy. destruct (String.eqb_spec s ""); cbn.
  - subst. tauto.
  - split; [discriminate | intros [H|H]; congruence].
Qed.

Lemma truthy_opt_true (o : option string) :
  Py.truthy_opt o = true <-> exists text, o = Some text /\ text <> "".
Proof.
  destruct o as [s|]; cbn.
  - unfold Py.truthy. destruct (String.eqb_spec s ""); cbn.
    + split; [discriminate | intros (t & [= ->] & Hne); congruence].
    + split; [eauto | reflexivity].
  - split; [discriminate | intros (t & H & _); discriminate].
Qed.

Lemma filter_none (A : Type) (f : A -> bool) (l : list A) :
  Forall (fun x => f x = false) l -> filter f l = [].
Proof.
  induction 1 as [|x l Hx _ IH]; cbn; [reflexivity | now rewrite Hx].
Qed.

Lemma filter_some (A : Type) (f : A -> bool) (l : list A) (x : A) :
  In x l -> f x = true -> filter f l <> [].
Proof.
  intros Hin Hf E. assert (In x (filter f l)) as H by (apply filter_In; auto).
  rewrite E in H. contradiction.
Qed.

(** The whole of [snippet_and_pattern_to_html], case by case. *)
Lemma snippet_and_pattern_to_html_cases (sgrep_pattern : option string)
    (sgrep_path : string) (code_snippets : list (option string * string)) :
  snippet_and_pattern_to_html sgrep_pattern sgrep_path code_snippets
  = if Py.truthy_opt sgrep_pattern then
      if existsb (fun x => Py.truthy_opt (fst x)) code_snippets then
        pattern_block sgrep_path (Py.format_opt sgrep_pattern)
        ++ "<div>" ++ Py.concat (map match_block code_snippets) ++ "</div>"
      else placeholder sgrep_path
    else "".
Proof.
  unfold snippet_and_pattern_to_html.
  destruct (Py.truthy_opt sgrep_pattern); [|reflexivity].
  destruct (existsb _ code_snippets) eqn:E.
  - apply existsb_exists in E as (x & Hin & Hx).
    pose proof (@filter_some _ (fun x => Py.truthy_opt (fst x)) _ x Hin Hx) as Hne.
    destruct (filter _ code_snippets); [congruence|]. cbn [List.length Nat.eqb negb].
    rewrite (map_ext _ match_block) by (intros [snippet path]; reflexivity).
    reflexivity.
  - rewrite filter_none; [reflexivity|].
    apply Forall_forall. intros x Hin.
    destruct (Py.truthy_opt (fst x)) eqn:Hx; [|reflexivity].
    assert (existsb (fun x => Py.truthy_opt (fst x)) code_snippets = true)
      by (apply existsb_exists; eauto).
    congruence.
Qed.

(** C6.  A pattern text that is absent or empty renders as the empty
    string; a pattern text that is not empty, with no snippet that is not
    empty, renders as the placeholder block, which names the path of the
    pattern file and holds no snippet block. *)
Theorem snippet_and_pattern_empty_states (sgrep_pattern : option string)
    (sgrep_path : string) (code_snippets : list (option string * string)) :
  (sgrep_pattern = None \/ sgrep_pattern = Some "" ->
   snippet_and_pattern_to_html sgrep_pattern sgrep_path code_snippets = "")
  /\ (forall text, sgrep_pattern = Some text -> text <> "" ->
      Forall (fun x => fst x = None \/ fst x = Some "") code_snippets ->
      snippet_and_pattern_to_html sgrep_pattern sgrep_path code_snippets
      = "<div class=" ++ quoted "notimplemented"
        ++ ">This is missing an example!<br/>Or it doesn't work yet for this language!<br/>Edit "
        ++ sgrep_path ++ "</div>").
Proof.
  rewrite snippet_and_pattern_to_html_cases. split.
  - intros H. apply truthy_opt_false in H. now rewrite H.
  - intros text -> Hne Hall.
    assert (Py.truthy_opt (Some text) = true) as ->
      by (apply truthy_opt_true; eauto).
    destruct (existsb _ code_snippets) eqn:E; [|reflexivity].
    apply existsb_exists in E as (x & Hin & Hx).
    rewrite Forall_forall in Hall. apply Hall, truthy_opt_false in Hin.
    congruence.
Qed.

Lemma snippet_and_pattern_empty_states_witness :
  snippet_and_pattern_to_html None "ruby/dots_args.sgrep" [(None, "ruby/dots_args.rb")]
  = ""
  /\ snippet_and_pattern_to_html (Some "foo(...)") "ruby/dots_args.sgrep"
       [(None, "ruby/dots_args.rb"); (Some "", "POLYGLOT/dots_args.rb")]
     = "<div class=" ++ quoted "notimplemented"
       ++ ">This is missing an example!<br/>Or it doesn't work yet for this language!<br/>Edit "
       ++ "ruby/dots_args.sgrep" ++ "</div>".
Proof.
  split.
  - apply (proj1 (snippet_and_pattern_empty_states None "ruby/dots_args.sgrep"
                    [(None, "ruby/dots_args.rb")])).
    left; reflexivity.
  - apply (proj2 (snippet_and_pattern_empty_states (Some "foo(...)")
                    "ruby/dots_args.sgrep"
                    [(None, "ruby/dots_args.rb"); (Some "", "POLYGLOT/dots_args.rb")]))
      with (text := "foo(...)").
    + reflexivity.
    + discriminate.
    + constructor; [left; reflexivity|].
      constructor; [right; reflexivity | constructor].
Defined.

(** ** The monad *)

Lemma bind_Ok (A B : Type) (m : M A) (f : A -> M B) (log : list event) (b : B) :
  bind m f = (log, Ok b) ->
  exists l1 a l2, m = (l1, Ok a) /\ f a = (l2, Ok b) /\ log = (l1 ++ l2)%list.
Proof.
  destruct m as [l1 [a|c|e]]; cbn; try discriminate.
  destruct (f a) as [l2 r] eqn:E. intros [= <- ->]. eauto 6.
Qed.

Lemma bind_ret_l (A B : Type) (a : A) (f : A -> M B) : bind (ret a) f = f a.
Proof.
  cbn. now destruct (f a).
Qed.

Lemma bind_assoc (A B C : Type) (m : M A) (f : A -> M B) (g : B -> M C) :
  bind (bind m f) g = bind m (fun a => bind (f a) g).
Proof.
  destruct m as [l [a|c|e]]; cbn; try reflexivity.
  destruct (f a) as [l' [b|c|e]]; cbn; try reflexivity.
  destruct (g b) as [l'' r]. now rewrite app_assoc.
Qed.

Lemma for_each_ext (A S : Type) (l : list A) (body body' : S -> A -> M S) :
  (forall s x, body s x = body' s x) ->
  forall s, for_each l body s = for_each l body' s.
Proof.
  intros Hext. induction l as [|x l IH]; intros s; cbn [for_each]; [reflexivity|].
  rewrite Hext. destruct (body' s x) as [log [s'| |]]; cbn; try reflexivity.
  now rewrite IH.
Qed.

Lemma for_each_app (A S : Type) (l1 l2 : list A) (body : S -> A -> M S) (s : S) :
  for_each (l1 ++ l2) body s
  = bind (for_each l1 body s) (fun s' => for_each l2 body s').
Proof.
  revert s. induction l1 as [|x l1 IH]; intros s; cbn [for_each app].
  - now rewrite bind_ret_l.
  - rewrite bind_assoc. destruct (body s x) as [log [s'| |]]; cbn; try reflexivity.
    now rewrite IH.
Qed.

Lemma for_each_map (A B S : Type) (h : A -> B) (l : list A)
    (body : S -> B -> M S) (s : S) :
  for_each (map h l) body s = for_each l (fun s x => body s (h x)) s.
Proof.
  revert s. induction l as [|x l IH]; intros s; cbn [for_each map]; [reflexivity|].
  destruct (body s (h x)) as [log [s'| |]]; cbn; try reflexivity.
  now rewrite IH.
Qed.

Lemma for_each_flat_map (A B S : Type) (g : A -> list B) (l : list A)
    (body : S -> B -> M S) (s : S) :
  for_each (flat_map g l) body s
  = for_each l (fun s x => for_each (g x) body s) s.
Proof.
  revert s. induction l as [|x l IH]; intros s; cbn [for_each flat_map]; [reflexivity|].
  rewrite for_each_app.
  destruct (for_each (g x) body s) as [log [s'| |]]; cbn; try reflexivity.
  now rewrite IH.
Qed.

(** ** A failed matcher run ends everything *)

Lemma clean_app (l1 l2 : list event) : clean l1 -> clean l2 -> clean (l1 ++ l2).
Proof.
  unfold clean. intros. apply Forall_app. auto.
Qed.

Lemma sound_ret (A : Type) (a : A) : sound (ret a).
Proof.
  constructor.
Qed.

Lemma sound_raise (A : Type) (e : exn) : sound (@raise A e).
Proof.
  constructor.
Qed.

Lemma sound_print (s : string) : sound (emit (EvPrint s)).
Proof.
  repeat constructor.
Qed.

Lemma sound_bind (A B : Type) (m : M A) (f : A -> M B) :
  sound m -> (forall a, sound (f a)) -> sound (bind m f).
Proof.
  destruct m as [l [a| |]]; intros Hm Hf; [|exact Hm..].
  specialize (Hf a). unfold sound in *. cbn in Hm |- *.
  destruct (f a) as [l' [b|status|e]]; cbn in Hf |- *.
  - now apply clean_app.
  - destruct Hf as (-> & before & cmd & text & res & -> & Hres & Hclean).
    split; [reflexivity|].
    exists (l ++ before)%list, cmd, text, res.
    rewrite app_assoc. auto using clean_app.
  - now apply clean_app.
Qed.

Lemma sound_for_each (A S : Type) (l : list A) (body : S -> A -> M S) :
  (forall s x, sound (body s x)) -> forall s, sound (for_each l body s).
Proof.
  intros Hbody. induction l as [|x l IH]; intros s; cbn [for_each].
  - apply sound_ret.
  - apply sound_bind; auto.
Qed.

Create HintDb sound.
#[local] Hint Resolve sound_ret sound_raise sound_print sound_bind
  sound_for_each : sound.

Lemma sound_open_read (W : World) (path : string) : sound (open_read W path).
Proof.
  unfold open_read. destruct (fs W path) as [[text|names]|]; auto with sound.
Qed.

Lemma sound_listdir (W : World) (path : string) : sound (listdir W path).
Proof.
  unfold listdir. destruct (fs W path) as [[text|names]|]; auto with sound.
Qed.

Lemma sound_json_getitem (j : json) (k : string) : sound (json_getitem j k).
Proof.
  destruct j as [|b|n|s|l|kvs]; cbn [json_getitem]; auto with sound.
  destruct (Py.get k kvs); auto with sound.
Qed.

Lemma sound_json_iter (j : json) : sound (json_iter j).
Proof.
  destruct j; cbn [json_iter]; auto with sound.
Qed.

#[local] Hint Resolve sound_open_read sound_listdir sound_json_getitem
  sound_json_iter : sound.

Lemma sound_run_semgrep_on_example (W : World)
    (lang config_arg_str code_path : string) :
  sound (run_semgrep_on_example W lang config_arg_str code_path).
Proof.
  unfold run_semgrep_on_example.
  apply sound_bind; [auto with sound|]. intros pattern_text.
  set (cmd := ["semgrep"; "--json"; _; code_path]).
  set (text := _config_to_string W _).
  destruct (Z.eqb_spec (returncode (subprocess_run W cmd text)) 0) as [Hz|Hnz].
  - cbn. unfold sound, clean. cbn. repeat constructor. exact Hz.
  - cbn. unfold sound. cbn. split; [reflexivity|].
    exists [EvPrint (">>> " ++ Py.join " " cmd)], cmd, text,
      (subprocess_run W cmd text).
    repeat split; [exact Hnz|]. repeat constructor.
Qed.

#[local] Hint Resolve sound_run_semgrep_on_example : sound.

Lemma sound_read_if_exists (W : World) (path : string) :
  sound (read_if_exists W path).
Proof.
  unfold read_if_exists. destruct (_ && _); auto with sound.
Qed.

Lemma sound_compute_highlights (W : World) (lang sgrep_path code_path : string) :
  sound (compute_highlights W lang sgrep_path code_path).
Proof.
  unfold compute_highlights. destruct (_ && _); [|auto with sound].
  apply sound_bind; [auto with sound|]. intros ranges.
  destruct (Py.truthy ranges); [|auto with sound].
  destruct (json_loads W ranges) as [j|]; [|auto with sound].
  apply sound_bind; [eauto with sound|]. intros results.
  apply sound_bind; [auto with sound|]. intros entries.
  apply sound_for_each. intros highlights entry.
  apply sound_bind; [eauto with sound|]. intros st.
  apply sound_bind; [eauto with sound|]. intros en. auto with sound.
Qed.

#[local] Hint Resolve sound_read_if_exists sound_compute_highlights : sound.

Lemma sound_cheatsheet_step (W : World) (root_dir lang category : string)
    (output : cheatsheet) (subcategory : string) :
  sound (cheatsheet_step W root_dir lang category output subcategory).
Proof.
  unfold cheatsheet_step, build_entry.
  apply sound_bind.
  - repeat (apply sound_bind; [auto with sound|]; intros ?). auto with sound.
  - intros entry. destruct (negb _); auto with sound.
Qed.

Lemma sound_generate_cheatsheet (W : World) (root_dir : string) :
  sound (generate_cheatsheet W root_dir).
Proof.
  unfold generate_cheatsheet, get_language_directories.
  apply sound_bind.
  - apply sound_bind; auto with sound.
  - intros langs. apply sound_for_each. intros output lang.
    apply sound_for_each. intros output' [category subcategories].
    apply sound_for_each. intros output'' subcategory.
    apply sound_cheatsheet_step.
Qed.

Lemma clean_no_failed_run (log : list event) :
  clean log -> Forall (fun ev => ~ failed_run ev /\ ~ touches_file ev) log.
Proof.
  apply Forall_impl. intros [s|l|cmd text res|file|file s]; cbn; tauto.
Qed.

Lemma clean_no_write (log : list event) (file s : string) :
  clean log -> ~ In (EvWrite file s) log.
Proof.
  intros Hclean Hin. unfold clean in Hclean. rewrite Forall_forall in Hclean.
  exact (Hclean _ Hin).
Qed.

Lemma clean_run_ok (log : list event) (cmd : list string) (text : string)
    (res : CompletedProcess) :
  clean log -> In (EvRun cmd text res) log -> returncode res = 0%Z.
Proof.
  intros Hclean Hin. unfold clean in Hclean. rewrite Forall_forall in Hclean.
  exact (Hclean _ Hin).
Qed.

(** [main] is the parsing of the arguments and then the rest. *)
Lemma main_after_parsing (W : World) (args : Args) :
  fst (main W args) = (opened args ++ fst (after_parsing W args))%list
  /\ snd (main W args) = snd (after_parsing W args).
Proof.
  assert (main W args = bind (parse_args args) (after_parsing W)) as ->
    by reflexivity.
  unfold parse_args, opened.
  destruct (output_file args) as [file|]; cbn [emit ret bind];
    destruct (after_parsing W args) as [log r]; split; reflexivity.
Qed.

Lemma in_opened (args : Args) (ev : event) :
  In ev (opened args) -> exists file, ev = EvOpen file.
Proof.
  unfold opened. destruct (output_file args) as [file|]; [|intros []].
  intros [<-|[]]. eauto.
Qed.

(** C4 as it is worded, in a run with [--output-file out.html] whose
    matcher exits with status 2: the program exits with status 1, and the
    output file has been opened for writing, so it is there and empty,
    whatever it held. *)
Lemma failed_run_leaves_output_file_emptied :
  In (EvRun ["semgrep"; "--json"; "--config=/tmp/tmpconfig";
             "root/python/dots_args.py"]
        "foo(...)"
        {| returncode := 2; stdout := ""; stderr := "bad pattern" |})
     (fst (main Fixture.failing_world Fixture.html_args))
  /\ snd (main Fixture.failing_world Fixture.html_args) = Exit 1
  /\ ~ (forall ev,
           In ev (fst (main Fixture.failing_world Fixture.html_args)) ->
           ~ touches_file ev).
Proof.
  split; [right; right; left; reflexivity|]. split; [reflexivity|].
  intros H. apply (H (EvOpen "out.html")); [left; reflexivity | exact I].
Qed.

(** C4, amended.  When a matcher run of the whole program exits with a
    status other than 0, the program exits with status 1; the log is what
    parsing the arguments logged (the opening of the output file when one
    was named, nothing otherwise), then events among which no matcher run
    failed and no file was touched, then that run and the two lines that
    report it: no matcher runs again and nothing is written into the output
    file or printed as output.  When the matcher exits with status 0,
    [run_semgrep_on_example] returns what it printed on its standard
    output. *)
Theorem matcher_failure_is_fatal (W : World) (args : Args) :
  (forall cmd config_text res,
      In (EvRun cmd config_text res) (fst (main W args)) ->
      returncode res <> 0%Z ->
      snd (main W args) = Exit 1
      /\ exit_status (snd (main W args)) = 1%Z
      /\ (forall file s, ~ In (EvWrite file s) (fst (main W args)))
      /\ exists before,
           fst (main W args)
           = (opened args ++ before ++ fatal_tail cmd config_text res)%list
           /\ Forall (fun ev => ~ failed_run ev /\ ~ touches_file ev) before)
  /\ (forall lang sgrep_path code_path text,
         fs W sgrep_path = Some (File text) ->
         let cmd := ["semgrep"; "--json"; "--config=" ++ tmp_name W; code_path] in
         let res :=
           subprocess_run W cmd (yaml_dump W (_single_pattern_to_dict text lang)) in
         returncode res = 0%Z ->
         snd (run_semgrep_on_example W lang sgrep_path code_path)
         = Ok (stdout res)).
Proof.
  split.
  - intros cmd text res Hin Hres.
    destruct (main_after_parsing W args) as [Hlog Hout].
    rewrite Hlog, Hout in *. clear Hlog Hout.
    apply in_app_or in Hin as [Hin|Hin];
      [apply in_opened in Hin as [file Hin]; discriminate Hin|].
    pose proof (sound_generate_cheatsheet W (directory args)) as Hsound.
    unfold after_parsing in *.
    destruct (generate_cheatsheet W (directory args)) as [log [doc|status|e]];
      unfold sound in Hsound; cbn [fst snd] in Hsound.
    + exfalso. apply Hres.
      assert (In (EvRun cmd text res) log) as Hlog.
      { revert Hin.
        destruct (json_flag args), (html_flag args), (output_file args);
          cbn; rewrite ?app_nil_r; intros Hin; try exact Hin;
          apply in_app_or in Hin as [Hin|[Hin|[]]]; auto; discriminate Hin. }
      eapply clean_run_ok; eauto.
    + cbn [bind fst snd] in *.
      destruct Hsound as (-> & before & cmd' & text' & res' & -> & Hres' & Hclean).
      apply in_app_or in Hin as [Hin|Hin].
      { exfalso. apply Hres. eapply clean_run_ok; eauto. }
      destruct Hin as [[= -> -> ->]|[Hin|[Hin|[]]]]; try discriminate Hin.
      repeat split.
      * intros file s Hw. apply in_app_or in Hw as [Hw|Hw];
          [apply in_opened in Hw as [file' Hw]; discriminate Hw|].
        apply in_app_or in Hw as [Hw|Hw].
        -- eapply clean_no_write; eauto.
        -- destruct Hw as [Hw|[Hw|[Hw|[]]]]; discriminate Hw.
      * exists before. split; [reflexivity|]. now apply clean_no_failed_run.
    + cbn [bind fst snd] in *. exfalso. apply Hres. eapply clean_run_ok; eauto.
  - intros lang sgrep_path code_path text Hfs cmd res Hres.
    unfold run_semgrep_on_example, open_read, _config_to_string. rewrite Hfs.
    cbn [bind ret emit snd]. fold cmd. fold res.
    apply Z.eqb_eq in Hres. rewrite Hres. reflexivity.
Qed.

Lemma matcher_failure_is_fatal_witness :
  snd (main Fixture.failing_world Fixture.html_args) = Exit 1
  /\ (forall file s,
         ~ In (EvWrite file s) (fst (main Fixture.failing_world Fixture.html_args)))
  /\ (exists before,
         fst (main Fixture.failing_world Fixture.html_args)
         = ([EvOpen "out.html"] ++ before
            ++ fatal_tail
                 ["semgrep"; "--json"; "--config=/tmp/tmpconfig";
                  "root/python/dots_args.py"]
                 "foo(...)"
                 {| returncode := 2; stdout := ""; stderr := "bad pattern" |})%list
         /\ Forall (fun ev => ~ failed_run ev /\ ~ touches_file ev) before)
  /\ snd (run_semgrep_on_example Fixture.python_world "python"
            "root/python/dots_args.sgrep" "root/python/dots_args.py")
     = Ok Fixture.one_match_text.
Proof.
  pose proof (matcher_failure_is_fatal Fixture.failing_world Fixture.html_args)
    as [Hfatal _].
  specialize (Hfatal
    ["semgrep"; "--json"; "--config=/tmp/tmpconfig"; "root/python/dots_args.py"]
    "foo(...)"
    {| returncode := 2; stdout := ""; stderr := "bad pattern" |}).
  destruct Hfatal as (Hexit & _ & Hwrite & Hlog).
  - right; right; left; reflexivity.
  - discriminate.
  - split; [exact Hexit|]. split; [exact Hwrite|]. split; [exact Hlog|].
    apply (proj2 (matcher_failure_is_fatal Fixture.python_world Fixture.html_args)
             "python" "root/python/dots_args.sgrep" "root/python/dots_args.py"
             ("foo(...)" ++ Py.lf)); reflexivity.
Defined.

(** ** [defaultdict] reads after updates *)

Section DefaultDictFacts.

Variables K V : Type.
Variable eqb : K -> K -> bool.
Hypothesis eqb_spec : forall a b, reflect (a = b) (eqb a b).

Lemma dd_get_update (k k' : K) (default : V) (f : V -> V) (d : list (K * V)) :
  dd_get eqb k (dd_update eqb k' default f d)
  = if eqb k k'
    then Some (f (match dd_get eqb k' d with Some v => v | None => default end))
    else dd_get eqb k d.
Proof.
  induction d as [|[k0 v] d IH]; cbn [dd_get dd_update].
  - reflexivity.
  - destruct (eqb_spec k' k0) as [->|Hne]; cbn [dd_get].
    + destruct (eqb k k0); reflexivity.
    + rewrite IH. destruct (eqb_spec k k0) as [->|Hne']; [|reflexivity].
      destruct (eqb_spec k0 k'); [congruence | reflexivity].
Qed.

End DefaultDictFacts.

Lemma lookup_append_entry (doc : cheatsheet) (e : pyentry)
    (lang feature_name subcategory_name lang' feature' subcategory' : string) :
  lookup (append_entry lang' feature' subcategory' e doc)
    lang feature_name subcategory_name
  = if (lang =? lang') && (feature_name =? feature')
       && (subcategory_name =? subcategory')
    then Some (or_nil (lookup doc lang feature_name subcategory_name) ++ [e])%list
    else lookup doc lang feature_name subcategory_name.
Proof.
  unfold lookup, append_entry.
  rewrite (@dd_get_update _ _ _ String.eqb_spec).
  destruct (String.eqb_spec lang lang') as [->|]; cbn [andb]; [|reflexivity].
  rewrite (@dd_get_update _ _ _ String.eqb_spec).
  destruct (String.eqb_spec feature_name feature') as [->|]; cbn [andb].
  - rewrite (@dd_get_update _ _ _ String.eqb_spec).
    destruct (String.eqb_spec subcategory_name subcategory') as [->|].
    + destruct (dd_get String.eqb lang' doc) as [features|]; [|reflexivity].
      destruct (dd_get String.eqb feature' features); reflexivity.
    + destruct (dd_get String.eqb lang' doc) as [features|]; [|reflexivity].
      destruct (dd_get String.eqb feature' features); reflexivity.
  - destruct (dd_get String.eqb lang' doc) as [features|]; reflexivity.
Qed.

(** ** One step of the aggregator *)

Lemma find_path_not_empty (W : World)
    (root_dir lang category subcategory extension : string) :
  Py.truthy (find_path W root_dir lang category subcategory extension) = true.
Proof.
  unfold find_path, Py.truthy.
  assert (forall a b, (a ++ "." ++ b =? "") = false) as Hne
    by (intros a b; apply String.eqb_neq; destruct a; discriminate).
  destruct (exists_ W _); now rewrite Hne.
Qed.

Lemma read_if_exists_missing (W : World) (path : string) :
  exists_ W path = false -> read_if_exists W path = ret None.
Proof.
  unfold read_if_exists. intros ->. now rewrite andb_false_r.
Qed.

Lemma read_if_exists_file (W : World) (path text : string) :
  Py.truthy path = true -> fs W path = Some (File text) ->
  read_if_exists W path = ret (Some text).
Proof.
  unfold read_if_exists, exists_, open_read. now intros -> ->.
Qed.

Lemma read_if_exists_not_dir (W : World) (path : string) :
  Py.truthy path = true ->
  (forall names, fs W path <> Some (Dir names)) ->
  exists o,
    read_if_exists W path = ret o
    /\ (exists_ W path = false -> o = None).
Proof.
  intros Hpath Hdir. destruct (fs W path) as [[text|names]|] eqn:E.
  - exists (Some text). split; [now apply read_if_exists_file|].
    unfold exists_. rewrite E. discriminate.
  - now destruct (Hdir names).
  - exists None. split; [|reflexivity].
    apply read_if_exists_missing. unfold exists_. now rewrite E.
Qed.

Lemma compute_highlights_missing (W : World) (lang sgrep_path code_path : string) :
  exists_ W sgrep_path && exists_ W code_path = false ->
  compute_highlights W lang sgrep_path code_path = ret [].
Proof.
  unfold compute_highlights. now intros ->.
Qed.

Lemma contains_In (x : string) (l : list string) :
  Py.contains x l = true <-> In x l.
Proof.
  unfold Py.contains. rewrite existsb_exists. split.
  - intros (y & Hin & Heq). apply String.eqb_eq in Heq. now subst.
  - intros Hin. exists x. split; [exact Hin | apply String.eqb_refl].
Qed.

(** C7.  When the pattern file or the code file of a (language, category,
    subcategory) is missing, and what is there is a regular file, the step
    of the aggregator runs no matcher, logs nothing and ends without an
    error; the entry it builds has no highlight and [None] as the text of
    each missing file; unless the pair is excluded for the language, that
    entry is the last one under the three keys of the document. *)
Theorem missing_asset_still_yields_entry (W : World)
    (root_dir lang category subcategory : string) (output : cheatsheet) :
  let sgrep_path := find_path W root_dir lang category subcategory "sgrep" in
  let code_path :=
    find_path W root_dir lang category subcategory (lang_dir_to_ext lang) in
  exists_ W sgrep_path = false \/ exists_ W code_path = false ->
  (forall names, fs W sgrep_path <> Some (Dir names)) ->
  (forall names, fs W code_path <> Some (Dir names)) ->
  exists e output',
    build_entry W root_dir lang category subcategory = ([], Ok e)
    /\ highlights e = []
    /\ (exists_ W sgrep_path = false -> pattern e = None)
    /\ (exists_ W code_path = false -> code e = None)
    /\ cheatsheet_step W root_dir lang category output subcategory
       = ([], Ok output')
    /\ (language_exception lang category subcategory = true ->
        output' = output)
    /\ (language_exception lang category subcategory = false ->
        exists earlier,
          lookup output' lang (feature_name_of category)
            (subcategory_name_of category subcategory)
          = Some (earlier ++ [EntryDict e])%list).
Proof.
  intros sgrep_path code_path Hmissing Hsgrep Hcode.
  destruct (read_if_exists_not_dir W sgrep_path
              (find_path_not_empty _ _ _ _ _ _) Hsgrep) as (p & Hp & Hpnone).
  destruct (read_if_exists_not_dir W code_path
              (find_path_not_empty _ _ _ _ _ _) Hcode) as (c & Hc & Hcnone).
  assert (build_entry W root_dir lang category subcategory
          = ([], Ok {| pattern := p;
                       pattern_path := relpath W sgrep_path root_dir;
                       code := c;
                       code_path := relpath W code_path root_dir;
                       highlights := [] |})) as Hbuild.
  { unfold build_entry. fold sgrep_path. fold code_path.
    rewrite compute_highlights_missing
      by (destruct Hmissing as [-> | ->]; [reflexivity | apply andb_false_r]).
    rewrite bind_ret_l, Hp, bind_ret_l, Hc, bind_ret_l. reflexivity. }
  set (e := {| pattern := p; pattern_path := _; code := c; code_path := _;
               highlights := [] |}) in Hbuild.
  exists e.
  exists (if language_exception lang category subcategory then output
          else append_entry lang (feature_name_of category)
                 (subcategory_name_of category subcategory) (EntryDict e) output).
  split; [exact Hbuild|]. split; [reflexivity|].
  split; [exact Hpnone|]. split; [exact Hcnone|].
  unfold cheatsheet_step. rewrite Hbuild.
  change (@pair (list event) (outcome entry) [] (Ok e)) with (ret e).
  rewrite bind_ret_l.
  destruct (language_exception lang category subcategory); cbn [negb].
  - split; [reflexivity|]. split; [reflexivity | discriminate].
  - split; [reflexivity|]. split; [discriminate|]. intros _.
    rewrite lookup_append_entry, !String.eqb_refl. cbn [andb]. eauto.
Qed.

Lemma missing_asset_still_yields_entry_witness :
  exists e output',
    build_entry Fixture.python_world "root" "python" "metavar" "arg" = ([], Ok e)
    /\ highlights e = []
    /\ pattern e = None
    /\ code e = None
    /\ cheatsheet_step Fixture.python_world "root" "python" "metavar" [] "arg"
       = ([], Ok output')
    /\ exists earlier,
         lookup output' "python" "Named Placeholders ($X)" "Argument"
         = Some (earlier ++ [EntryDict e])%list.
Proof.
  destruct (missing_asset_still_yields_entry Fixture.python_world
              "root" "python" "metavar" "arg" [])
    as (e & output' & Hbuild & Hh & Hp & Hc & Hstep & _ & Hin).
  - left; reflexivity.
  - intros names; discriminate.
  - intros names; discriminate.
  - exists e, output'. repeat split; auto.
Defined.

(** ** A matcher that succeeds *)

Lemma run_semgrep_on_example_ok (W : World)
    (lang sgrep_path code_path text : string) :
  fs W sgrep_path = Some (File text) ->
  let cmd := ["semgrep"; "--json"; "--config=" ++ tmp_name W; code_path] in
  let config_text := yaml_dump W (_single_pattern_to_dict text lang) in
  let res := subprocess_run W cmd config_text in
  returncode res = 0%Z ->
  run_semgrep_on_example W lang sgrep_path code_path
  = ([ EvPrint (">>> " ++ Py.join " " cmd);
       EvRun cmd config_text res;
       EvPrint (stderr res) ],
     Ok (stdout res)).
Proof.
  intros Hfs cmd config_text res Hres.
  unfold run_semgrep_on_example, open_read, _config_to_string. rewrite Hfs.
  cbn [bind ret emit]. fold cmd. fold config_text. fold res.
  apply Z.eqb_eq in Hres. rewrite Hres. reflexivity.
Qed.

Lemma exists_file (W : World) (path text : string) :
  fs W path = Some (File text) -> exists_ W path = true.
Proof.
  unfold exists_. now intros ->.
Qed.

(** The step at an example whose matcher run prints nothing. *)
Lemma build_entry_silent (W : World)
    (root_dir lang category subcategory ptext ctext : string) :
  let sgrep_path := find_path W root_dir lang category subcategory "sgrep" in
  let code_path :=
    find_path W root_dir lang category subcategory (lang_dir_to_ext lang) in
  fs W sgrep_path = Some (File ptext) ->
  fs W code_path = Some (File ctext) ->
  let cmd := ["semgrep"; "--json"; "--config=" ++ tmp_name W; code_path] in
  let config_text := yaml_dump W (_single_pattern_to_dict ptext lang) in
  let res := subprocess_run W cmd config_text in
  returncode res = 0%Z ->
  stdout res = "" ->
  build_entry W root_dir lang category subcategory
  = ([ EvPrint (">>> " ++ Py.join " " cmd);
       EvRun cmd config_text res;
       EvPrint (stderr res) ],
     Ok {| pattern := Some ptext;
           pattern_path := relpath W sgrep_path root_dir;
           code := Some ctext;
           code_path := relpath W code_path root_dir;
           highlights := [] |}).
Proof.
  intros sgrep_path code_path Hp Hc cmd config_text res Hres Hout.
  subst sgrep_path code_path.
  unfold build_entry, compute_highlights.
  rewrite (exists_file _ _ Hp), (exists_file _ _ Hc). cbn [andb].
  rewrite (run_semgrep_on_example_ok W lang _
             (find_path W root_dir lang category subcategory (lang_dir_to_ext lang))
             Hp Hres).
  fold cmd. fold config_text. fold res. rewrite Hout. cbn [bind Py.truthy String.eqb negb ret].
  rewrite (read_if_exists_file _ _ (find_path_not_empty _ _ _ _ _ _) Hp).
  rewrite (read_if_exists_file _ _ (find_path_not_empty _ _ _ _ _ _) Hc).
  reflexivity.
Qed.

(** C10.  When both files are there and the matcher exits with status 0
    having printed nothing, the step ends without an error and its entry
    has no highlight; [json.loads] plays no part in it: the step is the
    same whatever [json.loads] would do. *)
Theorem empty_matcher_output_is_no_match (W : World)
    (root_dir lang category subcategory ptext ctext : string) :
  let sgrep_path := find_path W root_dir lang category subcategory "sgrep" in
  let code_path :=
    find_path W root_dir lang category subcategory (lang_dir_to_ext lang) in
  fs W sgrep_path = Some (File ptext) ->
  fs W code_path = Some (File ctext) ->
  let cmd := ["semgrep"; "--json"; "--config=" ++ tmp_name W; code_path] in
  let config_text := yaml_dump W (_single_pattern_to_dict ptext lang) in
  let res := subprocess_run W cmd config_text in
  returncode res = 0%Z ->
  stdout res = "" ->
  snd (build_entry W root_dir lang category subcategory)
  = Ok {| pattern := Some ptext;
          pattern_path := relpath W sgrep_path root_dir;
          code := Some ctext;
          code_path := relpath W code_path root_dir;
          highlights := [] |}
  /\ In (EvRun cmd config_text res)
        (fst (build_entry W root_dir lang category subcategory))
  /\ forall loads,
       build_entry (with_json_loads W loads) root_dir lang category subcategory
       = build_entry W root_dir lang category subcategory.
Proof.
  intros sgrep_path code_path Hp Hc cmd config_text res Hres Hout.
  pose proof (build_entry_silent W root_dir lang category subcategory
                Hp Hc Hres Hout) as HW.
  split; [|split].
  - now rewrite HW.
  - rewrite HW. right; left; reflexivity.
  - intros loads. rewrite HW.
    exact (build_entry_silent (with_json_loads W loads) root_dir lang category
             subcategory Hp Hc Hres Hout).
Qed.

Lemma empty_matcher_output_is_no_match_witness :
  json_loads Fixture.silent_world "" = None
  /\ snd (build_entry Fixture.silent_world "root" "python" "dots" "args")
     = Ok {| pattern := Some ("foo(...)" ++ Py.lf);
             pattern_path := "python/dots_args.sgrep";
             code := Some "foo(1)";
             code_path := "python/dots_args.py";
             highlights := [] |}.
Proof.
  split; [reflexivity|].
  pose proof (@empty_matcher_output_is_no_match Fixture.silent_world
                "root" "python" "dots" "args" ("foo(...)" ++ Py.lf) "foo(1)")
    as H.
  cbv zeta in H.
  specialize (H ltac:(vm_compute; reflexivity) ltac:(vm_compute; reflexivity)
                ltac:(vm_compute; reflexivity) ltac:(vm_compute; reflexivity)).
  destruct H as [H _]. vm_compute in H. vm_compute. exact H.
Defined.

(** ** The loops of the aggregator, flattened *)

Lemma bind_ext (A B : Type) (m : M A) (f g : A -> M B) :
  (forall a, f a = g a) -> bind m f = bind m g.
Proof.
  intros Hext. destruct m as [l [a| |]]; cbn; try reflexivity. now rewrite Hext.
Qed.

Lemma snd_bind (A B : Type) (m : M A) (f : A -> M B) :
  snd (bind m f)
  = match snd m with
    | Ok a => snd (f a)
    | Exit status => Exit status
    | Raise e => Raise e
    end.
Proof.
  destruct m as [l [a| |]]; cbn; try reflexivity. now destruct (f a).
Qed.

Lemma generate_cheatsheet_flat (W : World) (root_dir : string) :
  generate_cheatsheet W root_dir
  = bind (get_language_directories W root_dir)
      (fun langs => for_each (triples langs) (step_at W root_dir) []).
Proof.
  unfold generate_cheatsheet. apply bind_ext. intros langs.
  unfold triples. rewrite for_each_flat_map.
  apply for_each_ext. intros output lang.
  rewrite for_each_map. unfold documented_pairs. rewrite for_each_flat_map.
  apply for_each_ext. intros output' [category subcategories].
  rewrite for_each_map. reflexivity.
Qed.

Lemma step_at_outcome (W : World) (root_dir : string) (output : cheatsheet)
    (t : string * (string * string)) :
  snd (step_at W root_dir output t)
  = match entry_at W root_dir t with
    | Ok e => Ok (pure_step (entry_at W root_dir) output t)
    | Exit status => Exit status
    | Raise e => Raise e
    end.
Proof.
  destruct t as [lang [category subcategory]].
  unfold step_at, cheatsheet_step, pure_step, entry_at. cbn [fst snd].
  rewrite snd_bind.
  destruct (snd (build_entry W root_dir lang category subcategory));
    try reflexivity.
  now destruct (negb _).
Qed.

Lemma for_each_steps_Ok (W : World) (root_dir : string)
    (ts : list (string * (string * string))) :
  forall output log doc,
    for_each ts (step_at W root_dir) output = (log, Ok doc) ->
    doc = fold_left (pure_step (entry_at W root_dir)) ts output.
Proof.
  induction ts as [|t ts IH]; intros output log doc; cbn [for_each fold_left].
  - now intros [= _ <-].
  - intros H. apply bind_Ok in H as (l1 & output' & l2 & H1 & H2 & _).
    apply IH in H2 as ->. f_equal.
    pose proof (step_at_outcome W root_dir output t) as Hout.
    rewrite H1 in Hout. cbn [snd] in Hout.
    destruct (entry_at W root_dir t); congruence.
Qed.

Lemma for_each_steps_total (W : World) (root_dir : string)
    (ts : list (string * (string * string))) :
  Forall (fun t => exists e, entry_at W root_dir t = Ok e) ts ->
  forall output,
    snd (for_each ts (step_at W root_dir) output)
    = Ok (fold_left (pure_step (entry_at W root_dir)) ts output).
Proof.
  induction 1 as [|t ts [e He] _ IH]; intros output; cbn [for_each fold_left].
  - reflexivity.
  - rewrite snd_bind, step_at_outcome, He. apply IH.
Qed.

Section StepsFacts.

Variable entry_of : string * (string * string) -> outcome entry.

Lemma lookup_pure_step (doc : cheatsheet) (t : string * (string * string))
    (lang feature_name subcategory_name : string) :
  lookup (pure_step entry_of doc t) lang feature_name subcategory_name
  = extend (lookup doc lang feature_name subcategory_name)
      (contribution entry_of lang feature_name subcategory_name t).
Proof.
  destruct t as [lang' [category subcategory]].
  unfold pure_step, contribution.
  destruct (entry_of _) as [e| |];
    [|destruct (_ && _ && _ && _); reflexivity ..].
  destruct (language_exception lang' category subcategory); cbn [negb].
  - now rewrite andb_false_r.
  - rewrite andb_true_r, lookup_append_entry.
    now destruct (_ && _ && _).
Qed.

Lemma extend_extend (A : Type) (o : option (list A)) (l1 l2 : list A) :
  extend (extend o l1) l2 = extend o (l1 ++ l2).
Proof.
  destruct l1 as [|x l1]; [reflexivity|].
  destruct l2 as [|y l2]; cbn.
  - now rewrite app_nil_r.
  - now rewrite <- app_assoc.
Qed.

Lemma lookup_fold (ts : list (string * (string * string))) :
  forall doc lang feature_name subcategory_name,
    lookup (fold_left (pure_step entry_of) ts doc)
      lang feature_name subcategory_name
    = extend (lookup doc lang feature_name subcategory_name)
        (flat_map (contribution entry_of lang feature_name subcategory_name) ts).
Proof.
  induction ts as [|t ts IH]; intros doc lang feature_name subcategory_name;
    cbn [fold_left flat_map].
  - reflexivity.
  - now rewrite IH, lookup_pure_step, extend_extend.
Qed.

End StepsFacts.

(** What the returned document holds under three keys. *)
Lemma generate_cheatsheet_lookup (W : World) (root_dir : string)
    (log : list event) (doc : cheatsheet) :
  generate_cheatsheet W root_dir = (log, Ok doc) ->
  exists langs,
    snd (get_language_directories W root_dir) = Ok langs
    /\ forall lang feature_name subcategory_name,
         lookup doc lang feature_name subcategory_name
         = extend None
             (flat_map
                (contribution (entry_at W root_dir)
                   lang feature_name subcategory_name)
                (triples langs)).
Proof.
  rewrite generate_cheatsheet_flat. intros H.
  apply bind_Ok in H as (l1 & langs & l2 & Hlangs & Hloop & _).
  exists langs. split; [now rewrite Hlangs|].
  intros lang feature_name subcategory_name.
  apply for_each_steps_Ok in Hloop as ->.
  now rewrite lookup_fold.
Qed.

(** ** Exclusions *)

(** Two documented pairs never share their two verbose names. *)
Lemma documented_names_injective (category subcategory category' subcategory' : string) :
  In (category, subcategory) documented_pairs ->
  In (category', subcategory') documented_pairs ->
  feature_name_of category = feature_name_of category' ->
  subcategory_name_of category subcategory
  = subcategory_name_of category' subcategory' ->
  (category, subcategory) = (category', subcategory').
Proof.
  assert (forallb
            (fun p =>
               forallb
                 (fun q =>
                    implb
                      ((feature_name_of (fst p) =? feature_name_of (fst q))
                       && (subcategory_name_of (fst p) (snd p)
                           =? subcategory_name_of (fst q) (snd q)))
                      ((fst p =? fst q) && (snd p =? snd q)))
                 documented_pairs)
            documented_pairs = true) as Hall by (vm_compute; reflexivity).
  intros Hp Hq Hf Hs.
  rewrite forallb_forall in Hall. specialize (Hall _ Hp).
  rewrite forallb_forall in Hall. specialize (Hall _ Hq).
  cbn [fst snd] in Hall. rewrite Hf, Hs, !String.eqb_refl in Hall.
  cbn [andb implb] in Hall. apply andb_prop in Hall as [H1 H2].
  apply String.eqb_eq in H1, H2. congruence.
Qed.

Lemma in_triples (langs : list string) (t : string * (string * string)) :
  In t (triples langs) <-> In (fst t) langs /\ In (snd t) documented_pairs.
Proof.
  unfold triples. rewrite in_flat_map. split.
  - intros (lang & Hlang & Hin). apply in_map_iff in Hin as (p & <- & Hp).
    now split.
  - intros [Hlang Hp]. exists (fst t). split; [exact Hlang|].
    apply in_map_iff. exists (snd t). split; [now destruct t | exact Hp].
Qed.

Lemma flat_map_nil (A B : Type) (f : A -> list B) (l : list A) :
  (forall x, In x l -> f x = []) -> flat_map f l = [].
Proof.
  induction l as [|x l IH]; intros H; cbn [flat_map]; [reflexivity|].
  rewrite H by (left; reflexivity). apply IH. intros y Hy. apply H. now right.
Qed.

(** C2.  When the exception list of a language holds the verbose feature
    name or the raw subcategory key of a documented pair, the document
    [generate_cheatsheet] returns has nothing under the language, feature
    name and subcategory name of that pair: the key is not in it. *)
Theorem excluded_pair_never_appears (W : World) (root_dir : string)
    (log : list event) (doc : cheatsheet) (lang category subcategory : string) :
  generate_cheatsheet W root_dir = (log, Ok doc) ->
  In (category, subcategory) documented_pairs ->
  In (feature_name_of category) (Py.get_default lang [] LANGUAGE_EXCEPTIONS)
  \/ In subcategory (Py.get_default lang [] LANGUAGE_EXCEPTIONS) ->
  lookup doc lang (feature_name_of category)
    (subcategory_name_of category subcategory) = None.
Proof.
  intros Hrun Hpair Hexc.
  apply generate_cheatsheet_lookup in Hrun as (langs & _ & ->).
  rewrite flat_map_nil; [reflexivity|].
  intros [lang' [category' subcategory']] Hin.
  apply in_triples in Hin as [_ Hpair']. cbn [snd] in Hpair'.
  unfold contribution.
  destruct (_ && _ && _ && _) eqn:Hcond; [exfalso | reflexivity].
  apply andb_prop in Hcond as [Hcond Hnot].
  apply andb_prop in Hcond as [Hcond Hs].
  apply andb_prop in Hcond as [Hl Hf].
  apply String.eqb_eq in Hl, Hf, Hs. subst lang'.
  pose proof (@documented_names_injective _ _ _ _ Hpair Hpair' Hf Hs) as [= <- <-].
  assert (language_exception lang category subcategory = true) as Htrue.
  { unfold language_exception. apply orb_true_iff.
    destruct Hexc as [H|H]; [left | right]; now apply contains_In. }
  rewrite Htrue in Hnot. discriminate Hnot.
Qed.

Lemma excluded_pair_never_appears_witness :
  exists log doc,
    generate_cheatsheet Fixture.python_world "root" = (log, Ok doc)
    /\ lookup doc "python" "Named Placeholders ($X)" "typed" = None.
Proof.
  destruct (generate_cheatsheet Fixture.python_world "root")
    as [log [doc|status|e]] eqn:Hrun;
    [|vm_compute in Hrun; discriminate Hrun ..].
  exists log, doc. split; [reflexivity|].
  apply (@excluded_pair_never_appears Fixture.python_world "root" log doc
           "python" "metavar" "typed" Hrun).
  - vm_compute. tauto.
  - right. left. reflexivity.
Defined.

(** ** The scenario of one Python example *)

Lemma find_path_specific (W : World)
    (root_dir lang category subcategory extension : string) :
  exists_ W (OsPath.join root_dir [lang; category ++ "_" ++ subcategory]
             ++ "." ++ extension) = true ->
  find_path W root_dir lang category subcategory extension
  = OsPath.join root_dir [lang; category ++ "_" ++ subcategory]
    ++ "." ++ extension.
Proof.
  unfold find_path. now intros ->.
Qed.

Lemma truthy_not_empty (s : string) : s <> "" -> Py.truthy s = true.
Proof.
  intros H. unfold Py.truthy. apply String.eqb_neq in H. now rewrite H.
Qed.

(** The step at an example whose matcher run reports one match. *)
Lemma build_entry_one_match (W : World)
    (root_dir lang category subcategory ptext ctext : string)
    (top m : list (string * json)) (st en : json) :
  let sgrep_path := find_path W root_dir lang category subcategory "sgrep" in
  let code_path :=
    find_path W root_dir lang category subcategory (lang_dir_to_ext lang) in
  fs W sgrep_path = Some (File ptext) ->
  fs W code_path = Some (File ctext) ->
  let cmd := ["semgrep"; "--json"; "--config=" ++ tmp_name W; code_path] in
  let config_text := yaml_dump W (_single_pattern_to_dict ptext lang) in
  let res := subprocess_run W cmd config_text in
  returncode res = 0%Z ->
  stdout res <> "" ->
  json_loads W (stdout res) = Some (JDict top) ->
  Py.get "results" top = Some (JList [JDict m]) ->
  Py.get "start" m = Some st ->
  Py.get "end" m = Some en ->
  snd (build_entry W root_dir lang category subcategory)
  = Ok {| pattern := Some ptext;
          pattern_path := relpath W sgrep_path root_dir;
          code := Some ctext;
          code_path := relpath W code_path root_dir;
          highlights := [ {| h_start := st; h_end := en |} ] |}.
Proof.
  intros sgrep_path code_path Hp Hc cmd config_text res Hres Hout
    Hloads Hresults Hst Hen.
  subst sgrep_path code_path.
  unfold build_entry, compute_highlights.
  rewrite (exists_file _ _ Hp), (exists_file _ _ Hc). cbn [andb].
  rewrite (run_semgrep_on_example_ok W lang _
             (find_path W root_dir lang category subcategory (lang_dir_to_ext lang))
             Hp Hres).
  fold cmd. fold config_text. fold res.
  rewrite (read_if_exists_file _ _ (find_path_not_empty _ _ _ _ _ _) Hp).
  rewrite (read_if_exists_file _ _ (find_path_not_empty _ _ _ _ _ _) Hc).
  cbn [bind]. rewrite (truthy_not_empty Hout), Hloads.
  cbn [json_getitem]. rewrite Hresults.
  cbn [ret bind json_iter for_each json_getitem]. rewrite Hst, Hen.
  reflexivity.
Qed.

Lemma build_entry_both_missing (W : World)
    (root_dir lang category subcategory : string) :
  exists_ W (find_path W root_dir lang category subcategory "sgrep") = false ->
  exists_ W (find_path W root_dir lang category subcategory
               (lang_dir_to_ext lang)) = false ->
  exists e, snd (build_entry W root_dir lang category subcategory) = Ok e.
Proof.
  intros Hp Hc. unfold build_entry.
  rewrite compute_highlights_missing by now rewrite Hp.
  rewrite bind_ret_l, (read_if_exists_missing _ _ Hp), bind_ret_l,
    (read_if_exists_missing _ _ Hc), bind_ret_l.
  eexists. reflexivity.
Qed.

Lemma flat_map_flat_map (A B C : Type) (f : B -> list C) (g : A -> list B)
    (l : list A) :
  flat_map f (flat_map g l) = flat_map (fun x => flat_map f (g x)) l.
Proof.
  induction l as [|x l IH]; cbn [flat_map]; [reflexivity|].
  now rewrite flat_map_app, IH.
Qed.

Lemma flat_map_single (A B : Type) (f : A -> list B) (a : A) (l : list A) :
  NoDup l -> In a l -> (forall x, In x l -> x <> a -> f x = []) ->
  flat_map f l = f a.
Proof.
  induction 1 as [|x l Hx Hnd IH]; intros Hin Hother; [contradiction|].
  cbn [flat_map]. destruct Hin as [->|Hin].
  - rewrite flat_map_nil; [apply app_nil_r|].
    intros y Hy. apply Hother; [now right|]. intros ->. contradiction.
  - rewrite Hother; [|now left | intros ->; contradiction].
    apply IH; [exact Hin|]. intros y Hy. apply Hother. now right.
Qed.

Section PythonContributions.

Variable entry_of : string * (string * string) -> outcome entry.

Lemma contribution_other_language (lang lang' feature_name subcategory_name : string)
    (pairs : list (string * string)) :
  lang <> lang' ->
  flat_map (contribution entry_of lang feature_name subcategory_name)
    (map (pair lang') pairs) = [].
Proof.
  intros Hne. apply flat_map_nil. intros t Hin.
  apply in_map_iff in Hin as ([category subcategory] & <- & _).
  unfold contribution. apply String.eqb_neq in Hne. now rewrite Hne.
Qed.

Lemma contribution_python_arguments :
  flat_map (contribution entry_of "python" "Wildcard Matches (...)" "Arguments")
    (map (pair "python") documented_pairs)
  = match entry_of ("python", ("dots", "args")) with
    | Ok e => [EntryDict e]
    | _ => []
    end.
Proof.
  rewrite <- app_nil_r. reflexivity.
Qed.

Lemma contribution_python_argument :
  flat_map (contribution entry_of "python" "Wildcard Matches (...)" "Argument")
    (map (pair "python") documented_pairs)
  = [].
Proof.
  reflexivity.
Qed.

End PythonContributions.

(** C8 as it is worded, in the world of the scenario: both files are
    there, the matcher reports the one match, the run returns a document,
    and that document has no entry under "Argument" of the feature
    "Wildcard Matches (...)". *)
Lemma python_dots_args_not_under_argument :
  exists_ Fixture.python_world "root/python/dots_args.py" = true
  /\ exists_ Fixture.python_world "root/python/dots_args.sgrep" = true
  /\ json_loads Fixture.python_world
       (stdout (subprocess_run Fixture.python_world [] ""))
     = Some Fixture.one_match
  /\ ~ (exists log doc e,
           generate_cheatsheet Fixture.python_world "root" = (log, Ok doc)
           /\ lookup doc "python" "Wildcard Matches (...)" "Argument"
              = Some [EntryDict e]).
Proof.
  repeat (split; [reflexivity|]).
  intros (log & doc & e & Hrun & Hlookup).
  vm_compute in Hrun. injection Hrun as _ <-.
  vm_compute in Hlookup. discriminate Hlookup.
Qed.

(** C8, amended.  In a root whose listing has no name twice and holds the
    directory [python], with [python/dots_args.sgrep] and
    [python/dots_args.py] there, the matcher reporting one match for them
    and no other documented example there for any listed name,
    [generate_cheatsheet] returns a document that has, under the language
    "python", the feature name "Wildcard Matches (...)" and the subcategory
    name "Arguments", exactly one entry, with the two texts and exactly one
    highlight, the range of the match; under the subcategory name
    "Argument" of that feature it has nothing. *)
Theorem python_dots_args_under_arguments (W : World) (root_dir : string)
    (names : list string) (ptext ctext : string)
    (top m : list (string * json)) (st en : json) :
  let sgrep_file := OsPath.join root_dir ["python"; "dots_args"] ++ ".sgrep" in
  let code_file := OsPath.join root_dir ["python"; "dots_args"] ++ ".py" in
  fs W root_dir = Some (Dir names) ->
  NoDup names ->
  In "python" names ->
  isdir W (OsPath.join root_dir ["python"]) = true ->
  fs W sgrep_file = Some (File ptext) ->
  fs W code_file = Some (File ctext) ->
  let res :=
    subprocess_run W
      ["semgrep"; "--json"; "--config=" ++ tmp_name W; code_file]
      (yaml_dump W (_single_pattern_to_dict ptext "python")) in
  returncode res = 0%Z ->
  stdout res <> "" ->
  json_loads W (stdout res) = Some (JDict top) ->
  Py.get "results" top = Some (JList [JDict m]) ->
  Py.get "start" m = Some st ->
  Py.get "end" m = Some en ->
  (forall lang category subcategory,
      In lang names ->
      In (category, subcategory) documented_pairs ->
      (lang, (category, subcategory)) <> ("python", ("dots", "args")) ->
      exists_ W (find_path W root_dir lang category subcategory "sgrep") = false
      /\ exists_ W (find_path W root_dir lang category subcategory
                      (lang_dir_to_ext lang)) = false) ->
  exists log doc e,
    generate_cheatsheet W root_dir = (log, Ok doc)
    /\ lookup doc "python" "Wildcard Matches (...)" "Arguments"
       = Some [EntryDict e]
    /\ pattern e = Some ptext
    /\ code e = Some ctext
    /\ highlights e = [ {| h_start := st; h_end := en |} ]
    /\ lookup doc "python" "Wildcard Matches (...)" "Argument" = None.
Proof.
  intros sgrep_file code_file Hroot Hnodup Hpython Hisdir Hp Hc res Hres Hout
    Hloads Hresults Hst Hen Hothers.
  (* the two paths [find_path] resolves to *)
  assert (find_path W root_dir "python" "dots" "args" "sgrep" = sgrep_file)
    as Hsgrep by (apply find_path_specific; exact (exists_file _ _ Hp)).
  assert (find_path W root_dir "python" "dots" "args" (lang_dir_to_ext "python")
          = code_file)
    as Hcode by (apply find_path_specific; exact (exists_file _ _ Hc)).
  (* the entry of the example *)
  pose proof (@build_entry_one_match W root_dir "python" "dots" "args"
                ptext ctext top m st en) as Hentry.
  cbv zeta in Hentry. rewrite Hsgrep, Hcode in Hentry.
  specialize (Hentry Hp Hc Hres Hout Hloads Hresults Hst Hen).
  set (e := {| pattern := Some ptext; pattern_path := _; code := Some ctext;
               code_path := _; highlights := _ |}) in Hentry.
  (* the language directories *)
  set (langs := filter
                  (fun f => isdir W (OsPath.join root_dir [f])
                            && negb (Py.contains f EXCLUDE)) names).
  assert (get_language_directories W root_dir = ret langs) as Hlangs.
  { unfold get_language_directories, listdir. rewrite Hroot.
    now rewrite bind_ret_l. }
  assert (In "python" langs) as Hin.
  { apply filter_In. split; [exact Hpython|]. now rewrite Hisdir. }
  assert (NoDup langs) as Hnd by now apply NoDup_filter.
  (* every step returns *)
  assert (Forall (fun t => exists e', entry_at W root_dir t = Ok e')
            (triples langs)) as Htotal.
  { apply Forall_forall. intros [lang [category subcategory]] Ht.
    apply in_triples in Ht as [Hl Hpair]. cbn [fst snd] in Hl, Hpair.
    apply filter_In in Hl as [Hl _].
    destruct (string_dec lang "python") as [->|Hlang];
      [destruct (string_dec category "dots") as [->|Hcat];
        [destruct (string_dec subcategory "args") as [->|Hsub]|]|].
    - exists e. exact Hentry.
    - apply build_entry_both_missing; apply Hothers; auto;
        cbn [fst snd]; congruence.
    - apply build_entry_both_missing; apply Hothers; auto;
        cbn [fst snd]; congruence.
    - apply build_entry_both_missing; apply Hothers; auto;
        cbn [fst snd]; congruence. }
  pose proof (for_each_steps_total W root_dir Htotal []) as Hloop.
  destruct (for_each (triples langs) (step_at W root_dir) [])
    as [log r] eqn:Hfor.
  cbn [snd] in Hloop. subst r.
  assert (generate_cheatsheet W root_dir
          = (log, Ok (fold_left (pure_step (entry_at W root_dir))
                        (triples langs) [])))
    as Hrun.
  { rewrite generate_cheatsheet_flat, Hlangs, bind_ret_l. exact Hfor. }
  exists log. eexists. exists e. split; [exact Hrun|].
  apply generate_cheatsheet_lookup in Hrun as (langs' & Hlangs' & Hlookup).
  rewrite Hlangs in Hlangs'. injection Hlangs' as <-.
  rewrite !Hlookup. unfold triples. rewrite !flat_map_flat_map.
  rewrite (@flat_map_single _ _ _ "python" langs Hnd Hin)
    by (intros x _ Hx; apply contribution_other_language;
        intros E; apply Hx; symmetry; exact E).
  rewrite (@flat_map_single _ _ _ "python" langs Hnd Hin)
    by (intros x _ Hx; apply contribution_other_language;
        intros E; apply Hx; symmetry; exact E).
  rewrite contribution_python_arguments, contribution_python_argument.
  unfold entry_at at 1. cbn [fst snd]. rewrite Hentry.
  repeat split.
Qed.

Lemma python_dots_args_under_arguments_witness :
  exists log doc e,
    generate_cheatsheet Fixture.python_world "root" = (log, Ok doc)
    /\ lookup doc "python" "Wildcard Matches (...)" "Arguments"
       = Some [EntryDict e]
    /\ pattern e = Some ("foo(...)" ++ Py.lf)
    /\ code e = Some "foo(1)"
    /\ highlights e
       = [ {| h_start := Fixture.position 1 1; h_end := Fixture.position 1 5 |} ]
    /\ lookup doc "python" "Wildcard Matches (...)" "Argument" = None.
Proof.
  apply (@python_dots_args_under_arguments Fixture.python_world "root"
           ["python"; "POLYGLOT"; "README"] ("foo(...)" ++ Py.lf) "foo(1)"
           [("results",
             JList [JDict [("start", Fixture.position 1 1);
                           ("end", Fixture.position 1 5)]])]
           [("start", Fixture.position 1 1); ("end", Fixture.position 1 5)]
           (Fixture.position 1 1) (Fixture.position 1 5)).
  - reflexivity.
  - repeat constructor; cbn; intuition discriminate.
  - left; reflexivity.
  - reflexivity.
  - reflexivity.
  - reflexivity.
  - reflexivity.
  - discriminate.
  - reflexivity.
  - reflexivity.
  - reflexivity.
  - reflexivity.
  - intros lang category subcategory Hlang Hpair Hne.
    cbn in Hlang, Hpair.
    destruct Hlang as [<-|[<-|[<-|[]]]];
      repeat (destruct Hpair as [[= <- <-]|Hpair];
              [first [now contradiction Hne | split; reflexivity]|]);
      contradiction.
Defined.

(** ** Grouping by pattern *)

Lemma key_eqb_spec (a b : option string * string) :
  reflect (a = b) (key_eqb a b).
Proof.
  destruct a as [[x|] p], b as [[y|] q]; unfold key_eqb; cbn [fst snd].
  - destruct (String.eqb_spec x y), (String.eqb_spec p q);
      constructor; congruence.
  - constructor. discriminate.
  - constructor. discriminate.
  - destruct (String.eqb_spec p q); constructor; congruence.
Qed.

Lemma by_pattern_fold (entries : list pyentry) :
  by_pattern entries = fold_left by_pattern_step entries [].
Proof.
  reflexivity.
Qed.

(** Under each key the dict holds the snippets of the entries that unpack
    to that key, in their order; a key no entry unpacks to is not there. *)
Lemma by_pattern_get (entries : list pyentry) (k : option string * string) :
  dd_get key_eqb k (by_pattern entries) = extend None (snippets_of k entries).
Proof.
  rewrite by_pattern_fold.
  change (@None (list (option string * string)))
    with (dd_get key_eqb k (@nil ((option string * string)
                                  * list (option string * string)))).
  generalize (@nil ((option string * string) * list (option string * string))).
  induction entries as [|e entries IH]; intros acc; [reflexivity|].
  cbn [fold_left]. rewrite IH. unfold snippets_of. cbn [flat_map].
  rewrite <- extend_extend. f_equal.
  unfold by_pattern_step. destruct (unpack e) as [[[p pp] c] cp].
  rewrite (@dd_get_update _ _ _ key_eqb_spec).
  destruct (key_eqb_spec k (p, pp)) as [->|]; [|reflexivity].
  now destruct (dd_get key_eqb (p, pp) acc).
Qed.

Lemma dd_update_keys (K V : Type) (eqb : K -> K -> bool)
    (eqb_spec : forall a b, reflect (a = b) (eqb a b))
    (k : K) (default : V) (f : V -> V) (d : list (K * V)) :
  map fst (dd_update eqb k default f d)
  = if existsb (eqb k) (map fst d) then map fst d
    else (map fst d ++ [k])%list.
Proof.
  induction d as [|[k0 v] d IH]; cbn [dd_update map fst existsb app].
  - reflexivity.
  - destruct (eqb k k0); cbn [orb map fst]; [reflexivity|].
    rewrite IH. now destruct (existsb _ _).
Qed.

(** No key is twice in the dict: a pattern and path get one block. *)
Lemma by_pattern_keys_nodup (entries : list pyentry) :
  NoDup (map fst (by_pattern entries)).
Proof.
  rewrite by_pattern_fold.
  assert (NoDup (map fst (@nil ((option string * string)
                                * list (option string * string)))))
    as Hnil by constructor.
  revert Hnil.
  generalize (@nil ((option string * string) * list (option string * string))).
  induction entries as [|e entries IH]; intros acc Hacc; [exact Hacc|].
  cbn [fold_left]. apply IH.
  unfold by_pattern_step. destruct (unpack e) as [[[p pp] c] cp].
  rewrite (@dd_update_keys _ _ _ key_eqb_spec).
  destruct (existsb _ _) eqn:E; [exact Hacc|].
  apply NoDup_app; [exact Hacc | repeat constructor; intros [] |].
  intros k Hk [Hk'|[]]. subst k.
  assert (existsb (key_eqb (p, pp)) (map fst acc) = true) as E'.
  { apply existsb_exists. exists (p, pp). split; [exact Hk|].
    now destruct (key_eqb_spec (p, pp) (p, pp)). }
  congruence.
Qed.

Lemma by_pattern_step_dicts (es : list entry) (n : nat) :
  fold_left by_pattern_step (map EntryDict es)
    [ ((Some "pattern", "pattern_path"), repeat (Some "code", "code_path") n) ]
  = [ ((Some "pattern", "pattern_path"),
       repeat (Some "code", "code_path") (n + List.length es)) ].
Proof.
  revert n. induction es as [|e es IH]; intros n; cbn [map fold_left List.length].
  - now rewrite Nat.add_0_r.
  - change (by_pattern_step [(Some "pattern", "pattern_path",
                              repeat (Some "code", "code_path") n)]
              (EntryDict e))
      with [ ((Some "pattern", "pattern_path"),
              (repeat (Some "code", "code_path") n
               ++ [(Some "code", "code_path")])%list) ].
    rewrite <- repeat_cons.
    etransitivity; [exact (IH (S n)) | now rewrite Nat.add_succ_r].
Qed.

(** Whatever the dicts hold, they all unpack to the names of their keys:
    one group, whose pattern is the word "pattern" and whose snippets are
    the word "code". *)
Lemma by_pattern_of_dicts (e : entry) (es : list entry) :
  by_pattern (map EntryDict (e :: es))
  = [ ((Some "pattern", "pattern_path"),
       repeat (Some "code", "code_path") (S (List.length es))) ].
Proof.
  rewrite by_pattern_fold. cbn [map fold_left].
  exact (by_pattern_step_dicts es 1).
Qed.

(** C3, on the entries [generate_cheatsheet] builds: two dicts with
    different patterns land in one group; the one pattern block shows the
    word "pattern" and links to "pattern_path", the snippet blocks show the
    word "code".  The same two entries as 5-tuples get a group and a
    pattern block each, with their own texts. *)
Theorem example_html_renders_dict_keys :
  by_pattern [EntryDict Fixture.entry_foo; EntryDict Fixture.entry_bar]
  = [ ((Some "pattern", "pattern_path"),
       [(Some "code", "code_path"); (Some "code", "code_path")]) ]
  /\ example_html "Arguments"
       [EntryDict Fixture.entry_foo; EntryDict Fixture.entry_bar]
     = "<div class=" ++ quoted "example" ++ "><h3>Arguments</h3>"
       ++ "<div class=pair>"
       ++ pattern_block "pattern_path" "pattern"
       ++ "<div>" ++ match_block (Some "code", "code_path")
       ++ match_block (Some "code", "code_path") ++ "</div>"
       ++ "</div></div>"
  /\ example_html "Arguments"
       [Fixture.as_tuple Fixture.entry_foo; Fixture.as_tuple Fixture.entry_bar]
     = "<div class=" ++ quoted "example" ++ "><h3>Arguments</h3>"
       ++ "<div class=pair>"
       ++ pattern_block "python/dots_args.sgrep" "foo(...)"
       ++ "<div>" ++ match_block (Some "foo(1)", "python/dots_args.py")
       ++ "</div></div>"
       ++ "<div class=pair>"
       ++ pattern_block "python/metavar_call.sgrep" "bar($X)"
       ++ "<div>" ++ match_block (Some "bar(2)", "python/metavar_call.py")
       ++ "</div></div>"
       ++ "</div>".
Proof.
  repeat split.
Qed.

(** * Further properties *)

(** ** White space around a pattern *)

Lemma rstrip_keeps_head (c : ascii) (s : string) :
  Py.isspace c = false -> exists r, Py.rstrip (String c s) = String c r.
Proof.
  intros Hc. cbn [Py.rstrip]. destruct (Py.rstrip s); [rewrite Hc|]; eauto.
Qed.

Lemma lstrip_head (s : string) :
  Py.lstrip s = ""
  \/ exists c r, Py.lstrip s = String c r /\ Py.isspace c = false.
Proof.
  induction s as [|c s IH]; [now left|]. cbn [Py.lstrip].
  destruct (Py.isspace c) eqn:Hc; [exact IH | right; eauto].
Qed.

Lemma strip_head (s : string) :
  Py.strip s = ""
  \/ exists c r, Py.strip s = String c r /\ Py.isspace c = false.
Proof.
  unfold Py.strip. destruct (lstrip_head s) as [->|(c & r & -> & Hc)].
  - now left.
  - right. destruct (@rstrip_keeps_head c r Hc) as [r' ->]. eauto.
Qed.

Lemma rstrip_idempotent (s : string) : Py.rstrip (Py.rstrip s) = Py.rstrip s.
Proof.
  induction s as [|c s IH]; [reflexivity|]. cbn [Py.rstrip].
  destruct (Py.rstrip s) as [|c' r] eqn:E.
  - destruct (Py.isspace c) eqn:Hc; [reflexivity|]. cbn. now rewrite Hc.
  - cbn [Py.rstrip] in IH |- *. now rewrite IH.
Qed.

Lemma rstrip_app_lf (s : string) : Py.rstrip (s ++ Py.lf) = Py.rstrip s.
Proof.
  induction s as [|c s IH]; [reflexivity|].
  cbn [append Py.rstrip]. now rewrite IH.
Qed.

Lemma strip_idempotent (s : string) : Py.strip (Py.strip s) = Py.strip s.
Proof.
  destruct (strip_head s) as [E|(c & r & E & Hc)].
  - now rewrite E.
  - unfold Py.strip at 1. rewrite E. cbn [Py.lstrip]. rewrite Hc.
    rewrite <- E. unfold Py.strip. apply rstrip_idempotent.
Qed.

Lemma strip_app_lf (s : string) :
  Py.strip s <> "" -> Py.strip (Py.strip s ++ Py.lf) = Py.strip s.
Proof.
  intros Hne. destruct (strip_head s) as [E|(c & r & E & Hc)]; [contradiction|].
  unfold Py.strip at 1. rewrite E. cbn [append Py.lstrip]. rewrite Hc.
  change (String c (r ++ Py.lf)) with (String c r ++ Py.lf).
  rewrite rstrip_app_lf, <- E. unfold Py.strip. apply rstrip_idempotent.
Qed.

Lemma in_app_string (c : ascii) (a b : string) :
  In c (list_ascii_of_string (a ++ b))
  <-> In c (list_ascii_of_string a) \/ In c (list_ascii_of_string b).
Proof.
  induction a as [|x a IH]; cbn; [tauto|]. rewrite IH. tauto.
Qed.

Lemma spans_lines_In (s : string) :
  spans_lines s = true <-> In Py.lf_char (list_ascii_of_string s).
Proof.
  apply split_more_than_one.
Qed.

(** X1.  The configuration built from a pattern that was already embedded
    is the configuration it was embedded in: stripping and the line feed
    rule reach a fixed point in one step. *)
Theorem single_pattern_to_dict_idempotent (raw lang : string) :
  map (fun embedded => _single_pattern_to_dict embedded lang)
    (embedded_patterns (_single_pattern_to_dict raw lang))
  = [_single_pattern_to_dict raw lang].
Proof.
  unfold _single_pattern_to_dict at 2 3. cbn [embedded_patterns rules flat_map
    rule_patterns app map].
  f_equal. unfold _single_pattern_to_dict. do 4 f_equal.
  destruct (spans_lines (Py.strip raw)) eqn:E.
  - assert (Py.strip raw <> "") as Hne.
    { intros H. rewrite H in E. discriminate E. }
    rewrite (@strip_app_lf raw Hne), E. reflexivity.
  - now rewrite strip_idempotent, E.
Qed.

Lemma endswith_char_In (c : ascii) (s : string) :
  Py.endswith_char c s = true -> In c (list_ascii_of_string s).
Proof.
  induction s as [|a s IH]; [discriminate|].
  cbn [Py.endswith_char list_ascii_of_string In].
  destruct s as [|b s]; [|auto].
  intros H. left. now apply Ascii.eqb_eq.
Qed.

(** X2.  The embedded pattern never starts with white space, and it holds
    a line feed exactly when it ends with one: a single-line pattern has no
    line feed at all, a multi-line pattern is terminated by one. *)
Theorem embedded_pattern_shape (raw lang : string) :
  Forall
    (fun embedded =>
       Py.lstrip embedded = embedded
       /\ (In Py.lf_char (list_ascii_of_string embedded)
           <-> Py.endswith_char Py.lf_char embedded = true))
    (embedded_patterns (_single_pattern_to_dict raw lang)).
Proof.
  unfold _single_pattern_to_dict.
  cbn [embedded_patterns rules flat_map rule_patterns app].
  constructor; [|constructor]. split.
  - destruct (strip_head raw) as [E|(c & r & E & Hc)]; rewrite E.
    + reflexivity.
    + destruct (spans_lines _); cbn [append Py.lstrip]; now rewrite Hc.
  - split; [|apply endswith_char_In].
    destruct (spans_lines (Py.strip raw)) eqn:E.
    + intros _. now rewrite endswith_char_app_nonempty.
    + intros H. apply spans_lines_In in H. congruence.
Qed.

(** ** More on grouping by pattern *)

Lemma dd_update_append_total (K A : Type) (eqb : K -> K -> bool) (k : K)
    (x : A) (d : list (K * list A)) :
  List.length (flat_map snd (dd_update eqb k [] (fun l => (l ++ [x])%list) d))
  = S (List.length (flat_map snd d)).
Proof.
  induction d as [|[k0 l] d IH]; cbn [dd_update flat_map snd]; [reflexivity|].
  destruct (eqb k k0); cbn [flat_map snd]; rewrite !length_app.
  - cbn [List.length]. lia.
  - rewrite IH. lia.
Qed.

(** X3.  In the dict [by_pattern] of a subcategory no key occurs twice, and
    under a key are the snippets of exactly the entries that unpack to that
    key, in the order of the entries. *)
Theorem by_pattern_groups (entries : list pyentry) (k : option string * string) :
  NoDup (map fst (by_pattern entries))
  /\ dd_get key_eqb k (by_pattern entries) = extend None (snippets_of k entries).
Proof.
  split; [apply by_pattern_keys_nodup | apply by_pattern_get].
Qed.

(** X4.  Grouping loses and invents nothing: the groups together hold as
    many snippets as the subcategory has entries. *)
Theorem by_pattern_keeps_every_entry (entries : list pyentry) :
  List.length (flat_map snd (by_pattern entries)) = List.length entries.
Proof.
  rewrite by_pattern_fold.
  change (List.length entries)
    with (List.length
            (flat_map snd (@nil ((option string * string)
                                 * list (option string * string))))
          + List.length entries)%nat.
  generalize (@nil ((option string * string) * list (option string * string))).
  induction entries as [|e entries IH]; intros acc; cbn [fold_left List.length].
  - lia.
  - rewrite IH. unfold by_pattern_step. destruct (unpack e) as [[[p pp] c] cp].
    rewrite dd_update_append_total. lia.
Qed.

(** X5.  On the dicts [generate_cheatsheet] builds, what a subcategory
    renders to depends on how many entries it has and on nothing they
    hold. *)
Theorem example_html_of_dicts_by_length (subcategory : string)
    (es es' : list entry) :
  List.length es = List.length es' ->
  example_html subcategory (map EntryDict es)
  = example_html subcategory (map EntryDict es').
Proof.
  intros Hlen. unfold example_html.
  destruct es as [|e es], es' as [|e' es']; try discriminate Hlen.
  - reflexivity.
  - rewrite !by_pattern_of_dicts. injection Hlen as ->. reflexivity.
Qed.

Lemma example_html_of_dicts_by_length_witness :
  example_html "Arguments" (map EntryDict [Fixture.entry_foo])
  = example_html "Arguments" (map EntryDict [Fixture.entry_bar]).
Proof.
  apply (@example_html_of_dicts_by_length "Arguments"
           [Fixture.entry_foo] [Fixture.entry_bar]).
  reflexivity.
Defined.

(** ** What one step logs and how it can end *)

Lemma fst_bind (A B : Type) (m : M A) (f : A -> M B) :
  fst (bind m f)
  = (fst m ++ match snd m with
              | Ok a => fst (f a)
              | _ => []
              end)%list.
Proof.
  destruct m as [l [a| |]]; cbn; [now destruct (f a) | now rewrite app_nil_r ..].
Qed.

(** A computation that logs nothing. *)
Lemma quiet_bind (A B : Type) (m : M A) (f : A -> M B) :
  fst m = [] -> (forall a, fst (f a) = []) -> fst (bind m f) = [].
Proof.
  intros Hm Hf. rewrite fst_bind, Hm. destruct (snd m); cbn [app]; auto.
Qed.

Lemma quiet_for_each (A S : Type) (l : list A) (body : S -> A -> M S) :
  (forall s x, fst (body s x) = []) -> forall s, fst (for_each l body s) = [].
Proof.
  intros Hbody. induction l as [|x l IH]; intros s; cbn [for_each];
    [reflexivity | now apply quiet_bind].
Qed.

Lemma quiet_open_read (W : World) (path : string) : fst (open_read W path) = [].
Proof.
  unfold open_read. now destruct (fs W path) as [[text|names]|].
Qed.

Lemma quiet_read_if_exists (W : World) (path : string) :
  fst (read_if_exists W path) = [].
Proof.
  unfold read_if_exists. destruct (_ && _); [|reflexivity].
  apply quiet_bind; [apply quiet_open_read | reflexivity].
Qed.

Lemma quiet_json_getitem (j : json) (k : string) : fst (json_getitem j k) = [].
Proof.
  destruct j as [|b|n|s|l|kvs]; try reflexivity.
  cbn [json_getitem]. now destruct (Py.get k kvs).
Qed.

Lemma quiet_json_iter (j : json) : fst (json_iter j) = [].
Proof.
  now destruct j.
Qed.

Lemma compute_highlights_log (W : World) (lang sgrep_path code_path' : string) :
  fst (compute_highlights W lang sgrep_path code_path')
  = if exists_ W sgrep_path && exists_ W code_path'
    then fst (run_semgrep_on_example W lang sgrep_path code_path')
    else [].
Proof.
  unfold compute_highlights. destruct (_ && _); [|reflexivity].
  rewrite fst_bind.
  destruct (snd (run_semgrep_on_example W lang sgrep_path code_path'))
    as [ranges| |]; try apply app_nil_r.
  match goal with
  | |- (_ ++ ?x)%list = _ => assert (x = []) as ->; [|apply app_nil_r]
  end.
  destruct (Py.truthy ranges); [|reflexivity].
  destruct (json_loads W ranges) as [j|]; [|reflexivity].
  apply quiet_bind; [apply quiet_json_getitem|]. intros results.
  apply quiet_bind; [apply quiet_json_iter|]. intros entries.
  apply quiet_for_each. intros highlights entry.
  apply quiet_bind; [apply quiet_json_getitem|]. intros st.
  apply quiet_bind; [apply quiet_json_getitem|]. reflexivity.
Qed.

Lemma build_entry_log (W : World) (root_dir lang category subcategory : string) :
  fst (build_entry W root_dir lang category subcategory)
  = fst (compute_highlights W lang
           (find_path W root_dir lang category subcategory "sgrep")
           (find_path W root_dir lang category subcategory (lang_dir_to_ext lang))).
Proof.
  unfold build_entry. rewrite fst_bind.
  destruct (snd (compute_highlights _ _ _ _)) as [h| |]; try apply app_nil_r.
  rewrite quiet_bind; [apply app_nil_r | apply quiet_read_if_exists |].
  intros p. apply quiet_bind; [apply quiet_read_if_exists | reflexivity].
Qed.

(** X6.  One step runs the matcher at most once: once when both resolved
    paths exist and the pattern path is a regular file, and not at all
    otherwise. *)
Theorem build_entry_runs_matcher_once (W : World)
    (root_dir lang category subcategory : string) :
  let sgrep_path := find_path W root_dir lang category subcategory "sgrep" in
  let code_path' :=
    find_path W root_dir lang category subcategory (lang_dir_to_ext lang) in
  List.length (runs (fst (build_entry W root_dir lang category subcategory)))
  = if exists_ W sgrep_path && exists_ W code_path'
    then match fs W sgrep_path with
         | Some (File _) => 1%nat
         | _ => 0%nat
         end
    else 0%nat.
Proof.
  intros sgrep_path code_path'.
  rewrite build_entry_log, compute_highlights_log.
  fold sgrep_path. fold code_path'.
  destruct (_ && _); [|reflexivity].
  unfold run_semgrep_on_example, open_read.
  destruct (fs W sgrep_path) as [[text|names]|]; try reflexivity.
  cbn [bind ret emit fst app].
  destruct (returncode _ =? 0)%Z; reflexivity.
Qed.

Lemma snd_build_entry (W : World) (root_dir lang category subcategory : string) :
  let sgrep_path := find_path W root_dir lang category subcategory "sgrep" in
  let code_path' :=
    find_path W root_dir lang category subcategory (lang_dir_to_ext lang) in
  snd (build_entry W root_dir lang category subcategory)
  = match snd (compute_highlights W lang sgrep_path code_path') with
    | Ok h =>
        match snd (read_if_exists W sgrep_path) with
        | Ok p =>
            match snd (read_if_exists W code_path') with
            | Ok c =>
                Ok {| pattern := p;
                      pattern_path := relpath W sgrep_path root_dir;
                      code := c;
                      code_path := relpath W code_path' root_dir;
                      highlights := h |}
            | Exit status => Exit status
            | Raise e => Raise e
            end
        | Exit status => Exit status
        | Raise e => Raise e
        end
    | Exit status => Exit status
    | Raise e => Raise e
    end.
Proof.
  intros sgrep_path code_path'. unfold build_entry.
  fold sgrep_path. fold code_path'.
  rewrite snd_bind. destruct (snd (compute_highlights _ _ _ _)); try reflexivity.
  rewrite snd_bind. destruct (snd (read_if_exists W sgrep_path)); try reflexivity.
  rewrite snd_bind. now destruct (snd (read_if_exists W code_path')).
Qed.

Lemma read_if_exists_existing (W : World) (path : string) (o : option string) :
  Py.truthy path = true -> exists_ W path = true ->
  snd (read_if_exists W path) = Ok o -> exists text, o = Some text.
Proof.
  unfold read_if_exists, open_read, exists_. intros -> Hex.
  destruct (fs W path) as [[text|names]|]; try discriminate; cbn.
  intros [= <-]. eauto.
Qed.

(** X7.  An entry that has a highlight has both of its texts: the matcher
    only runs when both files are there, and then both are read. *)
Theorem highlights_need_both_texts (W : World)
    (root_dir lang category subcategory : string) (e : entry) :
  snd (build_entry W root_dir lang category subcategory) = Ok e ->
  highlights e <> [] ->
  (exists text, pattern e = Some text) /\ (exists text, code e = Some text).
Proof.
  rewrite snd_build_entry. cbv zeta.
  set (sgrep_path := find_path W root_dir lang category subcategory "sgrep").
  set (code_path' := find_path W root_dir lang category subcategory
                       (lang_dir_to_ext lang)).
  destruct (exists_ W sgrep_path && exists_ W code_path') eqn:Hboth.
  - apply andb_prop in Hboth as [Hp Hc].
    destruct (snd (compute_highlights _ _ _ _)) as [h| |]; try discriminate.
    destruct (snd (read_if_exists W sgrep_path)) as [p| |] eqn:Ep; try discriminate.
    destruct (snd (read_if_exists W code_path')) as [c| |] eqn:Ec; try discriminate.
    intros [= <-] _. cbn [pattern code]. split.
    + exact (read_if_exists_existing W sgrep_path
               (find_path_not_empty _ _ _ _ _ _) Hp Ep).
    + exact (read_if_exists_existing W code_path'
               (find_path_not_empty _ _ _ _ _ _) Hc Ec).
  - rewrite (compute_highlights_missing _ lang _ _ Hboth). cbn [snd ret].
    destruct (snd (read_if_exists W sgrep_path)); try discriminate.
    destruct (snd (read_if_exists W code_path')); try discriminate.
    intros [= <-] Hh. now destruct Hh.
Qed.

Lemma highlights_need_both_texts_witness :
  exists e,
    snd (build_entry Fixture.python_world "root" "python" "dots" "args") = Ok e
    /\ (exists text, pattern e = Some text)
    /\ (exists text, code e = Some text).
Proof.
  eexists. split; [reflexivity|].
  apply (@highlights_need_both_texts Fixture.python_world
           "root" "python" "dots" "args"); [reflexivity | discriminate].
Defined.

(** ** What the matcher prints *)

(** The loop over the results, when every result has its two positions. *)
Lemma collect_highlights (results : list json) :
  forall (hs acc : list highlight),
    map highlight_of results = map Some hs ->
    for_each results
      (fun highlights entry =>
         st <- json_getitem entry "start" ;;
         en <- json_getitem entry "end" ;;
         ret (highlights ++ [ {| h_start := st; h_end := en |} ])%list)
      acc
    = ret (acc ++ hs)%list.
Proof.
  induction results as [|r results IH]; intros hs acc Hmap.
  - destruct hs; [|discriminate Hmap]. cbn [for_each]. now rewrite app_nil_r.
  - destruct hs as [|h hs]; [discriminate Hmap|].
    cbn [map] in Hmap. injection Hmap as Hr Hrest.
    cbn [for_each]. unfold highlight_of in Hr.
    destruct r as [|b|n|s|l|kvs]; try discriminate Hr.
    cbn [json_getitem].
    destruct (Py.get "start" kvs) as [st|]; [|discriminate Hr].
    destruct (Py.get "end" kvs) as [en|]; [|discriminate Hr].
    injection Hr as <-.
    rewrite !bind_ret_l, (IH hs _ Hrest), <- app_assoc. reflexivity.
Qed.

(** X8.  When both files are there and the matcher exits with status 0
    having reported results that all have a start and an end, the entry has
    one highlight for each result, in the order of the results, whatever
    else the report and the results hold. *)
Theorem highlights_follow_matcher_order (W : World)
    (root_dir lang category subcategory ptext ctext : string)
    (top : list (string * json)) (results : list json) (hs : list highlight) :
  let sgrep_path := find_path W root_dir lang category subcategory "sgrep" in
  let code_path' :=
    find_path W root_dir lang category subcategory (lang_dir_to_ext lang) in
  fs W sgrep_path = Some (File ptext) ->
  fs W code_path' = Some (File ctext) ->
  let cmd := ["semgrep"; "--json"; "--config=" ++ tmp_name W; code_path'] in
  let res :=
    subprocess_run W cmd (yaml_dump W (_single_pattern_to_dict ptext lang)) in
  returncode res = 0%Z ->
  stdout res <> "" ->
  json_loads W (stdout res) = Some (JDict top) ->
  Py.get "results" top = Some (JList results) ->
  map highlight_of results = map Some hs ->
  snd (build_entry W root_dir lang category subcategory)
  = Ok {| pattern := Some ptext;
          pattern_path := relpath W sgrep_path root_dir;
          code := Some ctext;
          code_path := relpath W code_path' root_dir;
          highlights := hs |}.
Proof.
  intros sgrep_path code_path' Hp Hc cmd res Hres Hout Hloads Hresults Hmap.
  subst sgrep_path code_path'.
  unfold build_entry, compute_highlights.
  rewrite (exists_file _ _ Hp), (exists_file _ _ Hc). cbn [andb].
  rewrite (run_semgrep_on_example_ok W lang _
             (find_path W root_dir lang category subcategory (lang_dir_to_ext lang))
             Hp Hres).
  fold cmd. fold res.
  rewrite (read_if_exists_file _ _ (find_path_not_empty _ _ _ _ _ _) Hp).
  rewrite (read_if_exists_file _ _ (find_path_not_empty _ _ _ _ _ _) Hc).
  cbn [bind]. rewrite (truthy_not_empty Hout), Hloads.
  cbn [json_getitem]. rewrite Hresults.
  cbn [ret bind json_iter]. rewrite (collect_highlights results hs [] Hmap).
  reflexivity.
Qed.

Lemma highlights_follow_matcher_order_witness :
  snd (build_entry Fixture2.two_matches_world "root" "python" "dots" "args")
  = Ok {| pattern := Some ("foo(...)" ++ Py.lf);
          pattern_path := "python/dots_args.sgrep";
          code := Some "foo(1)";
          code_path := "python/dots_args.py";
          highlights :=
            [ {| h_start := Fixture.position 1 1; h_end := Fixture.position 1 5 |};
              {| h_start := Fixture.position 3 1; h_end := Fixture.position 3 5 |} ] |}.
Proof.
  apply (@highlights_follow_matcher_order Fixture2.two_matches_world
           "root" "python" "dots" "args" ("foo(...)" ++ Py.lf) "foo(1)"
           [("results",
             JList [JDict [("check_id", JStr "default-example");
                           ("start", Fixture.position 1 1);
                           ("end", Fixture.position 1 5)];
                    JDict [("check_id", JStr "default-example");
                           ("start", Fixture.position 3 1);
                           ("end", Fixture.position 3 5)]]);
            ("errors", JList [])]
           [JDict [("check_id", JStr "default-example");
                   ("start", Fixture.position 1 1);
                   ("end", Fixture.position 1 5)];
            JDict [("check_id", JStr "default-example");
                   ("start", Fixture.position 3 1);
                   ("end", Fixture.position 3 5)]]
           [ {| h_start := Fixture.position 1 1; h_end := Fixture.position 1 5 |};
             {| h_start := Fixture.position 3 1; h_end := Fixture.position 3 5 |} ]);
    first [reflexivity | discriminate].
Defined.

(** How the highlights end once the matcher has exited with status 0 and
    printed something. *)
Lemma compute_highlights_after_run (W : World)
    (lang sgrep_path code_path' ptext : string) :
  fs W sgrep_path = Some (File ptext) ->
  exists_ W code_path' = true ->
  let cmd := ["semgrep"; "--json"; "--config=" ++ tmp_name W; code_path'] in
  let res :=
    subprocess_run W cmd (yaml_dump W (_single_pattern_to_dict ptext lang)) in
  returncode res = 0%Z ->
  stdout res <> "" ->
  snd (compute_highlights W lang sgrep_path code_path')
  = match json_loads W (stdout res) with
    | None => Raise JSONDecodeError
    | Some j =>
        snd (results <- json_getitem j "results" ;;
             entries <- json_iter results ;;
             for_each entries
               (fun highlights entry =>
                  st <- json_getitem entry "start" ;;
                  en <- json_getitem entry "end" ;;
                  ret (highlights ++ [ {| h_start := st; h_end := en |} ])%list)
               [])
    end.
Proof.
  intros Hp Hc cmd res Hres Hout. unfold compute_highlights.
  rewrite (exists_file _ _ Hp), Hc. cbn [andb].
  rewrite (run_semgrep_on_example_ok W lang _ code_path' Hp Hres).
  fold cmd. fold res. cbn [bind]. rewrite (truthy_not_empty Hout).
  destruct (json_loads W (stdout res)) as [j|]; [|reflexivity].
  match goal with |- snd (let (_, _) := ?m in _) = _ => now destruct m end.
Qed.

(** X9.  When both paths exist, the pattern is a regular file and the
    matcher exits with status 0 having printed something, a report that is
    no JSON ends the step with the decoding error, a JSON dict without
    ["results"] with [KeyError], and JSON that is a list with
    [TypeError]. *)
Theorem malformed_matcher_output_raises (W : World)
    (root_dir lang category subcategory ptext : string) :
  let sgrep_path := find_path W root_dir lang category subcategory "sgrep" in
  let code_path' :=
    find_path W root_dir lang category subcategory (lang_dir_to_ext lang) in
  fs W sgrep_path = Some (File ptext) ->
  exists_ W code_path' = true ->
  let cmd := ["semgrep"; "--json"; "--config=" ++ tmp_name W; code_path'] in
  let res :=
    subprocess_run W cmd (yaml_dump W (_single_pattern_to_dict ptext lang)) in
  returncode res = 0%Z ->
  stdout res <> "" ->
  (json_loads W (stdout res) = None ->
   snd (build_entry W root_dir lang category subcategory) = Raise JSONDecodeError)
  /\ (forall top,
         json_loads W (stdout res) = Some (JDict top) ->
         Py.get "results" top = None ->
         snd (build_entry W root_dir lang category subcategory)
         = Raise (KeyError "results"))
  /\ (forall l,
         json_loads W (stdout res) = Some (JList l) ->
         snd (build_entry W root_dir lang category subcategory) = Raise TypeError).
Proof.
  intros sgrep_path code_path' Hp Hc cmd res Hres Hout.
  pose proof (@compute_highlights_after_run W lang _ _ _ Hp Hc Hres Hout) as Hrun.
  fold cmd in Hrun. fold res in Hrun.
  rewrite snd_build_entry. cbv zeta. fold sgrep_path. fold code_path'.
  rewrite Hrun. split; [|split].
  - now intros ->.
  - intros top -> Hno. cbn [json_getitem]. now rewrite Hno.
  - now intros l ->.
Qed.

Lemma malformed_matcher_output_raises_witness :
  snd (build_entry Fixture2.garbage_world "root" "python" "dots" "args")
  = Raise JSONDecodeError
  /\ snd (build_entry Fixture2.no_results_world "root" "python" "dots" "args")
     = Raise (KeyError "results")
  /\ snd (build_entry Fixture2.list_world "root" "python" "dots" "args")
     = Raise TypeError.
Proof.
  split; [|split].
  - apply (proj1 (@malformed_matcher_output_raises Fixture2.garbage_world
                    "root" "python" "dots" "args" ("foo(...)" ++ Py.lf)
                    eq_refl eq_refl eq_refl ltac:(discriminate))).
    reflexivity.
  - apply (proj1 (proj2 (@malformed_matcher_output_raises
                    Fixture2.no_results_world
                    "root" "python" "dots" "args" ("foo(...)" ++ Py.lf)
                    eq_refl eq_refl eq_refl ltac:(discriminate)))
             [("errors", JList [])]);
      reflexivity.
  - apply (proj2 (proj2 (@malformed_matcher_output_raises Fixture2.list_world
                    "root" "python" "dots" "args" ("foo(...)" ++ Py.lf)
                    eq_refl eq_refl eq_refl ltac:(discriminate)))
             []).
    reflexivity.
Defined.

(** ** The whole run *)

Lemma writes_clean (log : list event) : clean log -> writes log = [].
Proof.
  unfold clean, writes. induction 1 as [|ev log Hev _ IH]; [reflexivity|].
  cbn [filter]. destruct ev; try exact IH. contradiction.
Qed.

Lemma writes_app (l1 l2 : list event) : writes (l1 ++ l2) = (writes l1 ++ writes l2)%list.
Proof.
  apply filter_app.
Qed.

Lemma writes_generate_cheatsheet (W : World) (root_dir : string) :
  writes (fst (generate_cheatsheet W root_dir)) = [].
Proof.
  pose proof (sound_generate_cheatsheet W root_dir) as Hsound.
  unfold sound in Hsound.
  destruct (generate_cheatsheet W root_dir) as [log [doc|status|e]];
    cbn [fst snd] in *; try now apply writes_clean.
  destruct Hsound as (_ & before & cmd & text & res & -> & _ & Hclean).
  rewrite writes_app, (writes_clean Hclean). reflexivity.
Qed.

Lemma writes_opened (args : Args) : writes (opened args) = [].
Proof.
  unfold opened. now destruct (output_file args).
Qed.

(** X10.  The run puts out its result once or never: when [main] ends
    well, [generate_cheatsheet] had returned a document, and the log is what
    parsing the arguments logged, then the log of [generate_cheatsheet],
    which has no write, then the one write (or print) of that document
    rendered as JSON or as HTML; when [main] ends in any other way, nothing
    is written. *)
Theorem main_writes_once_or_never (W : World) (args : Args) :
  match snd (main W args) with
  | Ok _ =>
      exists log doc,
        generate_cheatsheet W (directory args) = (log, Ok doc)
        /\ writes log = []
        /\ fst (main W args)
           = (opened args ++ log
              ++ [output_event args
                    (if json_flag args then json_dumps W doc
                     else cheatsheet_to_html doc)])%list
  | _ => writes (fst (main W args)) = []
  end.
Proof.
  destruct (main_after_parsing W args) as [-> ->].
  rewrite writes_app, writes_opened. cbn [app].
  pose proof (writes_generate_cheatsheet W (directory args)) as Hw.
  unfold after_parsing, output_event.
  destruct (generate_cheatsheet W (directory args)) as [log [doc|status|e]];
    cbn [fst snd] in Hw; [|exact Hw ..].
  destruct (json_flag args); [|destruct (html_flag args)].
  - destruct (output_file args); cbn; eauto 6.
  - destruct (output_file args); cbn; eauto 6.
  - cbn. now rewrite app_nil_r.
Qed.

(** X11.  A pair that is an exception for the language is still worked on
    in full: its step logs what building the entry logs, and ends as
    building the entry ends, so a matcher that fails on it ends the run; only
    a well-built entry is dropped, leaving the document as it was. *)
Theorem excluded_pair_is_still_computed (W : World)
    (root_dir lang category subcategory : string) (output : cheatsheet) :
  language_exception lang category subcategory = true ->
  fst (cheatsheet_step W root_dir lang category output subcategory)
  = fst (build_entry W root_dir lang category subcategory)
  /\ snd (cheatsheet_step W root_dir lang category output subcategory)
     = match snd (build_entry W root_dir lang category subcategory) with
       | Ok _ => Ok output
       | Exit status => Exit status
       | Raise e => Raise e
       end.
Proof.
  intros Hexc. unfold cheatsheet_step. rewrite fst_bind, snd_bind, Hexc.
  destruct (snd (build_entry W root_dir lang category subcategory));
    cbn; now rewrite ?app_nil_r.
Qed.

Lemma excluded_pair_is_still_computed_witness :
  language_exception "python" "metavar" "typed" = true
  /\ snd (cheatsheet_step Fixture2.typed_failing_world "root" "python" "metavar"
            [] "typed")
     = Exit 1
  /\ snd (main Fixture2.typed_failing_world Fixture.html_args) = Exit 1.
Proof.
  split; [reflexivity|]. split; [|reflexivity].
  rewrite (proj2 (@excluded_pair_is_still_computed Fixture2.typed_failing_world
                    "root" "python" "metavar" "typed" [] eq_refl)).
  reflexivity.
Defined.

(** X12.  A root that is not there, or that is a file, ends the run with
    the error of [os.listdir]: nothing is logged but what parsing the
    arguments logged, so an output file that was named is left empty. *)
Theorem unreadable_root_raises (W : World) (args : Args) :
  (fs W (directory args) = None ->
   main W args = (opened args, Raise FileNotFoundError))
  /\ (forall text,
         fs W (directory args) = Some (File text) ->
         main W args = (opened args, Raise NotADirectoryError)).
Proof.
  assert (forall e,
             after_parsing W args = ([], Raise e) ->
             main W args = (opened args, Raise e)) as Hmain.
  { intros e He. destruct (main_after_parsing W args) as [Hlog Hout].
    rewrite He in Hlog, Hout. cbn [fst snd] in Hlog, Hout.
    rewrite app_nil_r in Hlog. destruct (main W args) as [log r].
    cbn [fst snd] in Hlog, Hout. congruence. }
  split; [intros Hroot | intros text Hroot]; apply Hmain;
    unfold after_parsing, generate_cheatsheet, get_language_directories, listdir;
    now rewrite Hroot.
Qed.

Lemma unreadable_root_raises_witness :
  main Fixture.python_world
    {| directory := "nowhere"; output_file := Some "out.json";
       json_flag := true; html_flag := false |}
  = ([EvOpen "out.json"], Raise FileNotFoundError)
  /\ main Fixture.python_world
       {| directory := "root/README"; output_file := None;
          json_flag := true; html_flag := false |}
     = ([], Raise NotADirectoryError).
Proof.
  split.
  - apply (proj1 (unreadable_root_raises Fixture.python_world
                    {| directory := "nowhere"; output_file := Some "out.json";
                       json_flag := true; html_flag := false |})).
    reflexivity.
  - apply (proj2 (unreadable_root_raises Fixture.python_world
                    {| directory := "root/README"; output_file := None;
                       json_flag := true; html_flag := false |})
             "examples").
    reflexivity.
Defined.

(** X13.  A root in which every name is a reserved one or no directory has
    no language: the document is empty, [generate_cheatsheet] logs nothing,
    no matcher runs, and the HTML page that is put out is the style sheet
    and an empty body. *)
Theorem no_language_directory (W : World) (args : Args) (names : list string) :
  fs W (directory args) = Some (Dir names) ->
  (forall f, In f names ->
             isdir W (OsPath.join (directory args) [f]) = false
             \/ In f EXCLUDE) ->
  generate_cheatsheet W (directory args) = ([], Ok [])
  /\ (json_flag args = false -> html_flag args = true ->
      main W args = ((opened args ++ [output_event args empty_page])%list, Ok tt)).
Proof.
  intros Hroot Hnone.
  assert (generate_cheatsheet W (directory args) = ([], Ok [])) as Hgen.
  { unfold generate_cheatsheet, get_language_directories, listdir.
    rewrite Hroot, !bind_ret_l.
    rewrite filter_none; [reflexivity|].
    apply Forall_forall. intros f Hf.
    destruct (Hnone f Hf) as [-> | Hex]; [reflexivity|].
    apply contains_In in Hex. rewrite Hex. apply andb_false_r. }
  split; [exact Hgen|]. intros Hjson Hhtml.
  destruct (main_after_parsing W args) as [Hlog Hout].
  assert (after_parsing W args = ([output_event args empty_page], Ok tt)) as He.
  { unfold after_parsing. rewrite Hgen, Hjson, Hhtml. unfold output_event.
    now destruct (output_file args). }
  rewrite He in Hlog, Hout. cbn [fst snd] in Hlog, Hout.
  destruct (main W args) as [log r]. cbn [fst snd] in Hlog, Hout.
  destruct r as [[]| |]; congruence.
Qed.

Lemma no_language_directory_witness :
  generate_cheatsheet Fixture2.bare_world "root" = ([], Ok [])
  /\ main Fixture2.bare_world Fixture.html_args
     = ([EvOpen "out.html"; EvWrite "out.html" empty_page], Ok tt).
Proof.
  destruct (@no_language_directory Fixture2.bare_world Fixture.html_args
              ["README"; "POLYGLOT"] eq_refl) as [Hgen Hmain].
  - intros f [<-|[<-|[]]]; [left; reflexivity | right; cbn; tauto].
  - split; [exact Hgen | exact (Hmain eq_refl eq_refl)].
Defined.

(** ** What the returned document holds *)

Lemma for_each_steps_entries (W : World) (root_dir : string)
    (ts : list (string * (string * string))) :
  forall output log doc,
    for_each ts (step_at W root_dir) output = (log, Ok doc) ->
    Forall (fun t => exists e, entry_at W root_dir t = Ok e) ts.
Proof.
  induction ts as [|t ts IH]; intros output log doc; cbn [for_each].
  - constructor.
  - intros H. apply bind_Ok in H as (l1 & output' & l2 & H1 & H2 & _).
    constructor; [|exact (IH _ _ _ H2)].
    pose proof (step_at_outcome W root_dir output t) as Hout.
    rewrite H1 in Hout. cbn [snd] in Hout.
    destruct (entry_at W root_dir t) as [e| |]; [eauto | discriminate ..].
Qed.

(** The languages of a run that returned, and the entries of its steps. *)
Lemma generate_cheatsheet_returned (W : World) (root_dir : string)
    (log : list event) (doc : cheatsheet) (names : list string) :
  generate_cheatsheet W root_dir = (log, Ok doc) ->
  fs W root_dir = Some (Dir names) ->
  let langs :=
    filter (fun f => isdir W (OsPath.join root_dir [f])
                     && negb (Py.contains f EXCLUDE)) names in
  doc = fold_left (pure_step (entry_at W root_dir)) (triples langs) []
  /\ Forall (fun t => exists e, entry_at W root_dir t = Ok e) (triples langs).
Proof.
  intros Hrun Hroot langs. rewrite generate_cheatsheet_flat in Hrun.
  unfold get_language_directories, listdir in Hrun.
  rewrite Hroot, !bind_ret_l in Hrun. fold langs in Hrun.
  split; [exact (for_each_steps_Ok _ _ _ _ Hrun)
         | exact (for_each_steps_entries _ _ _ _ Hrun)].
Qed.

Lemma flat_map_map (A B C : Type) (f : B -> list C) (g : A -> B) (l : list A) :
  flat_map f (map g l) = flat_map (fun x => f (g x)) l.
Proof.
  induction l as [|x l IH]; cbn [map flat_map]; [reflexivity | now rewrite IH].
Qed.

Lemma documented_pairs_nodup : NoDup documented_pairs.
Proof.
  repeat (constructor;
          [cbn; intros H;
           repeat (destruct H as [H|H]; [discriminate H|]); exact H|]).
  constructor.
Qed.

Lemma language_directory (W : World) (root_dir lang : string) (names : list string) :
  In lang (filter (fun f => isdir W (OsPath.join root_dir [f])
                            && negb (Py.contains f EXCLUDE)) names)
  <-> In lang names /\ isdir W (OsPath.join root_dir [lang]) = true
      /\ ~ In lang EXCLUDE.
Proof.
  rewrite filter_In, andb_true_iff, negb_true_iff.
  split; intros (Hin & Hdir & Hex); repeat split; auto.
  - intros H. apply contains_In in H. congruence.
  - destruct (Py.contains lang EXCLUDE) eqn:E; [|reflexivity].
    apply contains_In in E. contradiction.
Qed.

(** X14.  In the document of a run that returned, over a root whose listing
    has no name twice, every language directory has under every documented
    pair that is no exception for it exactly one entry, the one built for
    that language and pair. *)
Theorem one_entry_per_documented_pair (W : World) (root_dir : string)
    (log : list event) (doc : cheatsheet) (names : list string)
    (lang category subcategory : string) :
  generate_cheatsheet W root_dir = (log, Ok doc) ->
  fs W root_dir = Some (Dir names) ->
  NoDup names ->
  In lang names ->
  isdir W (OsPath.join root_dir [lang]) = true ->
  ~ In lang EXCLUDE ->
  In (category, subcategory) documented_pairs ->
  language_exception lang category subcategory = false ->
  exists e,
    snd (build_entry W root_dir lang category subcategory) = Ok e
    /\ lookup doc lang (feature_name_of category)
         (subcategory_name_of category subcategory)
       = Some [EntryDict e].
Proof.
  intros Hrun Hroot Hnd Hin Hdir Hex Hpair Hexc.
  destruct (generate_cheatsheet_returned _ _ Hrun Hroot) as [-> Hall].
  set (langs := filter _ names) in *.
  assert (In lang langs) as Hlang by (apply language_directory; auto).
  assert (NoDup langs) as Hndl by now apply NoDup_filter.
  rewrite Forall_forall in Hall.
  destruct (Hall (lang, (category, subcategory))) as [e He].
  { apply in_triples. now split. }
  exists e. split; [exact He|].
  rewrite lookup_fold. unfold triples. rewrite flat_map_flat_map.
  rewrite (@flat_map_single _ _ _ lang langs Hndl Hlang)
    by (intros x _ Hx; apply contribution_other_language;
        intros E; apply Hx; symmetry; exact E).
  rewrite flat_map_map.
  rewrite (@flat_map_single _ _ _ (category, subcategory) documented_pairs
             documented_pairs_nodup Hpair).
  - unfold contribution. rewrite !String.eqb_refl, Hexc, He. reflexivity.
  - intros [category' subcategory'] Hpair' Hne. unfold contribution.
    destruct (_ && _ && _ && _) eqn:Hcond; [exfalso | reflexivity].
    apply andb_prop in Hcond as [Hcond _].
    apply andb_prop in Hcond as [Hcond Hs].
    apply andb_prop in Hcond as [_ Hf].
    apply String.eqb_eq in Hf, Hs.
    apply Hne. symmetry.
    exact (@documented_names_injective _ _ _ _ Hpair Hpair' Hf Hs).
Qed.

Lemma one_entry_per_documented_pair_witness :
  exists log doc e,
    generate_cheatsheet Fixture.python_world "root" = (log, Ok doc)
    /\ snd (build_entry Fixture.python_world "root" "python" "metavar" "call")
       = Ok e
    /\ lookup doc "python" "Named Placeholders ($X)" "Function Call"
       = Some [EntryDict e].
Proof.
  destruct (generate_cheatsheet Fixture.python_world "root")
    as [log [doc|status|e]] eqn:Hrun;
    [|vm_compute in Hrun; discriminate Hrun ..].
  destruct (@one_entry_per_documented_pair Fixture.python_world "root" log doc
              ["python"; "POLYGLOT"; "README"] "python" "metavar" "call" Hrun)
    as (e & He & Hlookup).
  - reflexivity.
  - repeat constructor; cbn; intuition discriminate.
  - left; reflexivity.
  - reflexivity.
  - cbn. intuition discriminate.
  - vm_compute. tauto.
  - reflexivity.
  - exists log, doc, e. auto.
Defined.

Lemma flat_map_not_nil (A B : Type) (f : A -> list B) (l : list A) :
  flat_map f l <> [] -> exists x, In x l /\ f x <> [].
Proof.
  induction l as [|x l IH]; cbn [flat_map]; [congruence|].
  destruct (f x) eqn:E.
  - intros H. destruct (IH H) as (y & Hy & Hne). exists y. split; [now right | exact Hne].
  - intros _. exists x. split; [now left | congruence].
Qed.

(** X15.  The document of a run that returned has no key of its own
    making: what is under three keys is a list that is not empty, the
    language is a directory of the root that is not reserved, and the two
    names are the verbose names of a documented pair that is no exception
    for the language. *)
Theorem document_keys_are_documented (W : World) (root_dir : string)
    (log : list event) (doc : cheatsheet) (names : list string)
    (lang feature_name subcategory_name : string) (es : list pyentry) :
  generate_cheatsheet W root_dir = (log, Ok doc) ->
  fs W root_dir = Some (Dir names) ->
  lookup doc lang feature_name subcategory_name = Some es ->
  es <> []
  /\ In lang names
  /\ isdir W (OsPath.join root_dir [lang]) = true
  /\ ~ In lang EXCLUDE
  /\ exists category subcategory,
       In (category, subcategory) documented_pairs
       /\ language_exception lang category subcategory = false
       /\ feature_name = feature_name_of category
       /\ subcategory_name = subcategory_name_of category subcategory.
Proof.
  intros Hrun Hroot Hlookup.
  destruct (generate_cheatsheet_returned _ _ Hrun Hroot) as [-> _].
  set (langs := filter _ names) in *.
  rewrite lookup_fold in Hlookup. cbn [lookup dd_get] in Hlookup.
  destruct (flat_map _ (triples langs)) as [|x l] eqn:E; [discriminate Hlookup|].
  injection Hlookup as <-. split; [discriminate|].
  destruct (@flat_map_not_nil _ _
              (contribution (entry_at W root_dir) lang feature_name subcategory_name)
              (triples langs))
    as ([lang' [category subcategory]] & Ht & Hne); [rewrite E; discriminate|].
  apply in_triples in Ht as [Hl Hpair]. cbn [fst snd] in Hl, Hpair.
  unfold contribution in Hne.
  destruct (_ && _ && _ && _) eqn:Hcond; [|now destruct Hne].
  apply andb_prop in Hcond as [Hcond Hnot].
  apply andb_prop in Hcond as [Hcond Hs].
  apply andb_prop in Hcond as [Hlang Hf].
  apply String.eqb_eq in Hlang, Hf, Hs. subst lang'.
  apply language_directory in Hl as (Hin & Hdir & Hex).
  repeat (split; [assumption|]).
  exists category, subcategory. repeat split; auto.
  now apply negb_true_iff.
Qed.

Lemma document_keys_are_documented_witness :
  exists log doc es,
    generate_cheatsheet Fixture.python_world "root" = (log, Ok doc)
    /\ lookup doc "python" "Wildcard Matches (...)" "Arguments" = Some es
    /\ es <> []
    /\ isdir Fixture.python_world (OsPath.join "root" ["python"]) = true.
Proof.
  destruct (generate_cheatsheet Fixture.python_world "root")
    as [log [doc|status|e]] eqn:Hrun;
    [|vm_compute in Hrun; discriminate Hrun ..].
  destruct (lookup doc "python" "Wildcard Matches (...)" "Arguments")
    as [es|] eqn:Hlookup;
    [|vm_compute in Hrun; injection Hrun as _ <-;
      vm_compute in Hlookup; discriminate Hlookup].
  destruct (@document_keys_are_documented Fixture.python_world "root" log doc
              ["python"; "POLYGLOT"; "README"]
              "python" "Wildcard Matches (...)" "Arguments" es Hrun eq_refl
              Hlookup)
    as (Hne & _ & Hdir & _).
  exists log, doc, es. auto.
Defined.

(** ** The order of the languages *)

Lemma first_pair_never_excluded (lang : string) :
  language_exception lang "concrete" "syntax" = false.
Proof.
  unfold language_exception, Py.get_default, LANGUAGE_EXCEPTIONS.
  cbn [Py.get].
  repeat (destruct (lang =? _); [reflexivity|]). reflexivity.
Qed.

Lemma keys_append_entry (lang feature_name subcategory_name : string)
    (e : pyentry) (doc : cheatsheet) :
  map fst (append_entry lang feature_name subcategory_name e doc)
  = if Py.contains lang (map fst doc) then map fst doc
    else (map fst doc ++ [lang])%list.
Proof.
  unfold append_entry. apply (@dd_update_keys _ _ _ String.eqb_spec).
Qed.

Section Keys.

Variable entry_of : string * (string * string) -> outcome entry.

Lemma keys_pure_step_present (doc : cheatsheet) (lang : string)
    (p : string * string) :
  In lang (map fst doc) ->
  map fst (pure_step entry_of doc (lang, p)) = map fst doc.
Proof.
  intros Hin. destruct p as [category subcategory]. unfold pure_step.
  destruct (entry_of _); try reflexivity.
  destruct (negb _); [|reflexivity].
  rewrite keys_append_entry. apply contains_In in Hin. now rewrite Hin.
Qed.

Lemma keys_block_present (lang : string) (ps : list (string * string)) :
  forall doc,
    In lang (map fst doc) ->
    map fst (fold_left (pure_step entry_of) (map (pair lang) ps) doc)
    = map fst doc.
Proof.
  induction ps as [|p ps IH]; intros doc Hin; cbn [map fold_left]; [reflexivity|].
  rewrite IH; rewrite keys_pure_step_present; auto.
Qed.

Lemma documented_pairs_head :
  documented_pairs = ("concrete", "syntax") :: tl documented_pairs.
Proof.
  reflexivity.
Qed.

Lemma pure_step_first (lang : string) (doc : cheatsheet) (e : entry) :
  entry_of (lang, ("concrete", "syntax")) = Ok e ->
  pure_step entry_of doc (lang, ("concrete", "syntax"))
  = append_entry lang "Exact Matches" "Single Statements" (EntryDict e) doc.
Proof.
  intros He. unfold pure_step. rewrite He, first_pair_never_excluded.
  reflexivity.
Qed.

Lemma keys_block (lang : string) (doc : cheatsheet) :
  (exists e, entry_of (lang, ("concrete", "syntax")) = Ok e) ->
  map fst (fold_left (pure_step entry_of) (map (pair lang) documented_pairs) doc)
  = if Py.contains lang (map fst doc) then map fst doc
    else (map fst doc ++ [lang])%list.
Proof.
  intros [e He]. rewrite documented_pairs_head.
  generalize (tl documented_pairs) as ps. intros ps.
  cbn [map fold_left]. rewrite (pure_step_first doc He).
  rewrite keys_block_present; rewrite keys_append_entry.
  - reflexivity.
  - destruct (Py.contains lang (map fst doc)) eqn:E.
    + now apply contains_In.
    + apply in_or_app. right. now left.
Qed.

Lemma keys_languages (langs : list string) :
  NoDup langs ->
  (forall lang, In lang langs ->
                exists e, entry_of (lang, ("concrete", "syntax")) = Ok e) ->
  forall doc,
    (forall lang, In lang langs -> ~ In lang (map fst doc)) ->
    map fst (fold_left (pure_step entry_of) (triples langs) doc)
    = (map fst doc ++ langs)%list.
Proof.
  induction 1 as [|lang langs Hnotin Hnd IH]; intros Hok doc Hfresh.
  - cbn. now rewrite app_nil_r.
  - unfold triples. cbn [flat_map]. rewrite fold_left_app.
    fold (triples langs). rewrite IH.
    + rewrite keys_block by (apply Hok; now left).
      destruct (Py.contains lang (map fst doc)) eqn:E.
      * apply contains_In in E. destruct (Hfresh lang); [now left | exact E].
      * now rewrite <- app_assoc.
    + intros l Hl. apply Hok. now right.
    + intros l Hl. rewrite keys_block by (apply Hok; now left).
      assert (l <> lang) as Hne by (intros ->; contradiction).
      assert (~ In l (map fst doc)) as Hl' by (apply Hfresh; now right).
      destruct (Py.contains lang (map fst doc)); [exact Hl'|].
      intros H. apply in_app_or in H as [H|[H|[]]]; [contradiction | congruence].
Qed.

End Keys.

(** X16.  The languages of the returned document are the language
    directories of the root, each once, in the order [os.listdir] gave
    them (the listing having no name twice): every directory that is not
    reserved is there, also one without any example. *)
Theorem document_languages_in_listing_order (W : World) (root_dir : string)
    (log : list event) (doc : cheatsheet) (names : list string) :
  generate_cheatsheet W root_dir = (log, Ok doc) ->
  fs W root_dir = Some (Dir names) ->
  NoDup names ->
  map fst doc
  = filter (fun f => isdir W (OsPath.join root_dir [f])
                     && negb (Py.contains f EXCLUDE)) names.
Proof.
  intros Hrun Hroot Hnd.
  destruct (generate_cheatsheet_returned _ _ Hrun Hroot) as [-> Hall].
  set (langs := filter _ names) in *.
  rewrite keys_languages; [reflexivity | now apply NoDup_filter | | auto].
  intros lang Hlang. rewrite Forall_forall in Hall.
  apply (Hall (lang, ("concrete", "syntax"))).
  apply in_triples. split; [exact Hlang | now left].
Qed.

Lemma document_languages_in_listing_order_witness :
  exists log doc,
    generate_cheatsheet Fixture2.two_languages_world "root" = (log, Ok doc)
    /\ map fst doc = ["ruby"; "python"].
Proof.
  destruct (generate_cheatsheet Fixture2.two_languages_world "root")
    as [log [doc|status|e]] eqn:Hrun;
    [|vm_compute in Hrun; discriminate Hrun ..].
  exists log, doc. split; [reflexivity|].
  rewrite (@document_languages_in_listing_order Fixture2.two_languages_world
             "root" log doc ["ruby"; "TODO"; "python"; "notes.txt"] Hrun eq_refl).
  - reflexivity.
  - repeat constructor; cbn; intuition discriminate.
Defined.

(** ** The coverage table *)

Lemma count_occ_append_td (l : list string) (name : string) :
  name <> "<td>" -> name <> "<tr>" ->
  count_occ string_dec (append_td l name) "<td>"
  = S (count_occ string_dec l "<td>")
  /\ count_occ string_dec (append_td l name) "<tr>"
     = count_occ string_dec l "<tr>".
Proof.
  intros Htd Htr. unfold append_td. rewrite !count_occ_app. cbn [count_occ].
  destruct (string_dec name "<td>"); [contradiction|].
  destruct (string_dec name "<tr>"); [contradiction|].
  cbn. lia.
Qed.

Lemma count_occ_cells (g : string -> string) (languages : list string) :
  (forall lang, g lang <> "<td>" /\ g lang <> "<tr>") ->
  forall tags,
    count_occ string_dec
      (fold_left (fun tags lang => append_td tags (g lang)) languages tags) "<td>"
    = (count_occ string_dec tags "<td>" + List.length languages)%nat
    /\ count_occ string_dec
         (fold_left (fun tags lang => append_td tags (g lang)) languages tags) "<tr>"
       = count_occ string_dec tags "<tr>".
Proof.
  intros Hg. induction languages as [|lang languages IH]; intros tags;
    cbn [fold_left List.length].
  - split; [lia | reflexivity].
  - destruct (IH (append_td tags (g lang))) as [-> ->].
    destruct (Hg lang) as [Htd Htr].
    destruct (count_occ_append_td tags Htd Htr) as [-> ->].
    split; [lia | reflexivity].
Qed.

Lemma get_emoji_is_no_tag (count : Z) :
  get_emoji count <> "<td>" /\ get_emoji count <> "<tr>".
Proof.
  unfold get_emoji. destruct (count =? 0)%Z; [|destruct (count <? 5)%Z];
    split; discriminate.
Qed.

Lemma bold_is_no_tag (lang : string) :
  "<b>" ++ lang ++ "</b>" <> "<td>" /\ "<b>" ++ lang ++ "</b>" <> "<tr>".
Proof.
  split; discriminate.
Qed.

Lemma verbose_feature_is_no_tag (f : string) :
  Py.format_opt (Py.get f VERBOSE_FEATURE_NAME) <> "<td>"
  /\ Py.format_opt (Py.get f VERBOSE_FEATURE_NAME) <> "<tr>".
Proof.
  unfold VERBOSE_FEATURE_NAME. cbn [Py.get].
  repeat (destruct (f =? _); [split; discriminate|]). split; discriminate.
Qed.

Lemma count_occ_rows (stats : list (string * list (string * Z)))
    (features : list string) :
  forall tags,
    let rows :=
      fold_left
        (fun tags f =>
           let tags := (tags ++ ["<tr>"])%list in
           let tags :=
             append_td tags (Py.format_opt (Py.get f VERBOSE_FEATURE_NAME)) in
           let tags :=
             fold_left
               (fun tags lang =>
                  append_td tags
                    (get_emoji
                       (Py.get_default f 0%Z (Py.get_default lang [] stats))))
               (map fst stats) tags in
           (tags ++ ["</tr>"])%list)
        features tags in
    count_occ string_dec rows "<tr>"
    = (count_occ string_dec tags "<tr>" + List.length features)%nat
    /\ count_occ string_dec rows "<td>"
       = (count_occ string_dec tags "<td>"
          + List.length features * S (List.length stats))%nat.
Proof.
  induction features as [|f features IH]; intros tags; cbn [fold_left List.length].
  - cbn zeta. split; lia.
  - cbn zeta in IH |- *.
    match goal with
    | |- context [fold_left _ features ?t] => destruct (IH t) as [-> ->]
    end.
    rewrite !count_occ_app.
    destruct (@count_occ_cells
                (fun lang =>
                   get_emoji
                     (Py.get_default f 0%Z (Py.get_default lang [] stats)))
                (map fst stats) (fun lang => get_emoji_is_no_tag _)
                (append_td (tags ++ ["<tr>"])
                   (Py.format_opt (Py.get f VERBOSE_FEATURE_NAME))))
      as [-> ->].
    destruct (verbose_feature_is_no_tag f) as [Htd Htr].
    destruct (@count_occ_append_td (tags ++ ["<tr>"])
                (Py.format_opt (Py.get f VERBOSE_FEATURE_NAME)) Htd Htr)
      as [-> ->].
    rewrite !count_occ_app, length_map. cbn [count_occ].
    destruct (string_dec "<tr>" "<tr>"); [|contradiction].
    destruct (string_dec "<tr>" "<td>"); [discriminate|].
    destruct (string_dec "</tr>" "<tr>"); [discriminate|].
    destruct (string_dec "</tr>" "<td>"); [discriminate|].
    split; lia.
Qed.

(** X17.  The table is a rectangle: whatever the statistics hold, the tags
    open one row for the languages and one for each of the four features,
    and one cell for each row and each column, the columns being one for
    the labels and one for each language. *)
Theorem print_to_html_is_rectangular (stats : list (string * list (string * Z))) :
  count_occ string_dec (print_to_html_tags stats) "<tr>"
  = S (List.length FEATURES)
  /\ count_occ string_dec (print_to_html_tags stats) "<td>"
     = (S (List.length FEATURES) * S (List.length stats))%nat.
Proof.
  unfold print_to_html_tags. cbv zeta. rewrite !count_occ_app.
  match goal with
  | |- context [fold_left _ FEATURES ?t] =>
      destruct (count_occ_rows stats FEATURES t) as [H1 H2]
  end.
  cbv zeta in H1, H2. rewrite H1, H2. clear H1 H2.
  rewrite !count_occ_app.
  destruct (@count_occ_cells (fun lang => "<b>" ++ lang ++ "</b>")
              (map fst stats) bold_is_no_tag
              (append_td
                 ["<table style=" ++ quoted "text-align:center" ++ ">"; "<tr>"]
                 ""))
    as [-> ->].
  rewrite length_map. cbn. split; lia.
Qed.

(** X18.  The statistics of a language directory have the four features as
    keys, in their order; each count is the number of names the glob of the
    feature gave, so it is not negative, and on these counts the marker is
    the partial one exactly from 1 to 4 and the missing one exactly when no
    name matched. *)
Theorem compute_stats_counts (glob1 : string -> string -> list string)
    (dir_name lang_dir : string) :
  map fst (compute_stats glob1 dir_name lang_dir) = FEATURES
  /\ forall f count,
       In (f, count) (compute_stats glob1 dir_name lang_dir) ->
       let matched :=
         glob1 (OsPath.join dir_name [lang_dir])
           (f ++ "*." ++ lang_dir_to_ext lang_dir) in
       count = Z.of_nat (List.length matched)
       /\ (0 <= count)%Z
       /\ (get_emoji count = orange_diamond <-> (1 <= count < 5)%Z)
       /\ (get_emoji count = construction_sign <-> matched = []).
Proof.
  split; [reflexivity|].
  intros f count Hin matched.
  assert (count = Z.of_nat (List.length matched)) as Hcount.
  { subst matched. unfold compute_stats in Hin.
    cbn [FEATURES fold_left dd_update String.eqb Ascii.eqb Bool.eqb In] in Hin.
    destruct Hin as [H|[H|[H|[H|[]]]]]; injection H as <- <-; reflexivity. }
  split; [exact Hcount|]. split; [lia|].
  assert (count = 0%Z <-> matched = []) as Hzero.
  { rewrite Hcount. destruct matched; cbn [List.length]; split;
      first [reflexivity | discriminate | lia]. }
  rewrite <- Hzero. unfold get_emoji.
  destruct (Z.eqb_spec count 0) as [->|Hz]; [|destruct (Z.ltb_spec count 5)];
    tiers.
Qed.

Lemma compute_stats_counts_witness :
  In ("dots", 1%Z)
     (compute_stats
        (fun _ pattern => if pattern =? "dots*.py" then ["dots_args.py"] else [])
        "root" "python")
  /\ get_emoji 1 = orange_diamond.
Proof.
  split; [left; reflexivity|].
  apply (proj1 (proj2 (proj2 (proj2
           (@compute_stats_counts
              (fun _ pattern =>
                 if pattern =? "dots*.py" then ["dots_args.py"] else [])
              "root" "python") "dots" 1%Z (or_introl eq_refl))))).
  lia.
Defined.
